(** * Job Helper API: the request handlers and the model gateway of [main.py]

    A shallow embedding of [src/main.py]: the values [json.loads] can hand
    to the handlers, the exceptions the handlers let escape, the two prompt
    templates, the gateway [call_openai_for_json] and the two endpoints
    [score_resume] and [generate_cover_letter]. *)

From Stdlib Require Import ZArith Ascii String List Bool Lia.
From Stdlib Require Import Floats.SpecFloat.
From stdpp Require Import base option list strings gmap.

Set Warnings "-register-all".
Local Open Scope string_scope.
Local Open Scope Z_scope.

(** ** Python values

    What [json.loads] returns: [None], [bool], [int], [float], [str],
    [list] and [dict] with [str] keys.  A Python [float] is an IEEE-754
    binary64 number, here a [spec_float] ([json.loads] also accepts the
    literals [NaN], [Infinity] and [-Infinity]).  A [str] is a [string]
    whose characters are the code points below 256. *)

Module Py.

Inductive value : Type :=
  | VNone
  | VBool (b : bool)
  | VInt (n : Z)
  | VFloat (f : spec_float)
  | VStr (s : string)
  | VList (l : list value)
  | VDict (d : gmap string value).

(** The class of an exception raised by a builtin or by pydantic.  The
    handlers have no [try] of their own, so the message of such an
    exception is never inspected by [main.py].  [NotException name] is an
    exception whose class [name] derives from [BaseException] but not from
    [Exception] ([KeyboardInterrupt], [SystemExit], [GeneratorExit]): no
    [except Exception] clause catches it. *)
Inductive error_class : Type :=
  | TypeError
  | ValueError
  | OverflowError
  | KeyError
  | AttributeError
  | ValidationError
  | NotException (name : string).

(** What a handler raises: [HTTPException(status_code, detail)], built by
    [main.py] itself, or any other exception, which it does not catch. *)
Inductive exn : Type :=
  | HTTPException (status_code : Z) (detail : string)
  | Uncaught (cls : error_class).

Inductive result (A : Type) : Type :=
  | Return (a : A)
  | Raise (e : exn).
Global Arguments Return {A} a.
Global Arguments Raise {A} e.

Global Instance result_ret : MRet result := fun _ a => Return a.
Global Instance result_bind : MBind result := fun _ _ k m =>
  match m with
  | Return a => k a
  | Raise e => Raise e
  end.

Definition returns {A} (m : result A) : bool :=
  match m with Return _ => true | Raise _ => false end.

Definition is_http_exception (e : exn) : bool :=
  match e with HTTPException _ _ => true | Uncaught _ => false end.

End Py.
Export Py.

(** ** [float(x)] and [round(x)]

    [float] of a [str] follows CPython: characters from 127 on are turned
    into a space when they are white space (U+0085 and U+00A0 below 256)
    and are rejected otherwise; an underscore may stand between two digits;
    leading and trailing white space is dropped; what remains is an
    optional sign followed by [inf], [infinity], [nan] (in any case) or a
    decimal numeral with an optional exponent.  The numeral denotes the
    binary64 number nearest to it, ties to even. *)

Module PyFloat.

Definition prec : Z := 53.
Definition emax : Z := 1024.

Definition code (c : ascii) : Z := Z.of_N (N_of_ascii c).

Definition is_digit (c : ascii) : bool := (48 <=? code c) && (code c <=? 57).

Definition is_space (c : ascii) : bool :=
  ((9 <=? code c) && (code c <=? 13)) || (code c =? 32).

Definition to_ascii_space (c : ascii) : ascii :=
  if code c <? 127 then c
  else if (code c =? 133) || (code c =? 160) then " "%char
  else "?"%char.

Definition to_lower (c : ascii) : ascii :=
  if (65 <=? code c) && (code c <=? 90)
  then ascii_of_N (Z.to_N (code c + 32)) else c.

Fixpoint drop_underscores (prev : ascii) (s : list ascii) : option (list ascii) :=
  match s with
  | [] => if Ascii.eqb prev "_" then None else Some []
  | c :: rest =>
      if Ascii.eqb c "_" then
        if is_digit prev then drop_underscores c rest else None
      else if Ascii.eqb prev "_" && negb (is_digit c) then None
      else cons c <$> drop_underscores c rest
  end.

Fixpoint lstrip (s : list ascii) : list ascii :=
  match s with
  | c :: rest => if is_space c then lstrip rest else s
  | [] => []
  end.

Definition strip (s : list ascii) : list ascii := rev (lstrip (rev (lstrip s))).

Fixpoint span_digits (s : list ascii) : list ascii * list ascii :=
  match s with
  | c :: rest =>
      if is_digit c then let '(ds, r) := span_digits rest in (c :: ds, r)
      else ([], s)
  | [] => ([], [])
  end.

Definition digits_value (ds : list ascii) : Z :=
  fold_left (fun acc c => 10 * acc + (code c - 48)) ds 0.

Definition split_sign (s : list ascii) : bool * list ascii :=
  match s with
  | c :: rest =>
      if Ascii.eqb c "-" then (true, rest)
      else if Ascii.eqb c "+" then (false, rest)
      else (false, s)
  | [] => (false, [])
  end.

(** A decimal numeral [digits [. digits] [(e|E) [sign] digits]] with at
    least one digit before the exponent, as the pair [(d, x)] of the
    integer [d] and the power of ten [x] with value [d * 10^x]. *)
Definition parse_numeral (s : list ascii) : option (Z * Z) :=
  let '(ip, r1) := span_digits s in
  let '(fp, r2) :=
    match r1 with
    | c :: r => if Ascii.eqb c "." then span_digits r else ([], r1)
    | [] => ([], r1)
    end in
  let d := digits_value (ip ++ fp)%list in
  let scale := Z.of_nat (length fp) in
  match (ip ++ fp)%list with
  | [] => None
  | _ :: _ =>
      match r2 with
      | [] => Some (d, - scale)
      | c :: r3 =>
          if Ascii.eqb (to_lower c) "e" then
            let '(eneg, r4) := split_sign r3 in
            let '(ed, r5) := span_digits r4 in
            match ed, r5 with
            | _ :: _, [] =>
                let x := digits_value ed in
                Some (d, (if eneg then - x else x) - scale)
            | _, _ => None
            end
          else None
      end
  end.

(** The binary64 number nearest to [d * 10^x], ties to even; an overflow
    gives an infinity, an underflow a zero. *)
Definition of_decimal (neg : bool) (d x : Z) : spec_float :=
  match d with
  | Zpos p =>
      if 0 <=? x then
        match Zpos p * 10 ^ x with
        | Zpos m => binary_round prec emax neg m 0
        | _ => S754_zero neg
        end
      else
        let '(q, e, l) := SFdiv_core_binary prec emax (Zpos p) 0 (10 ^ (- x)) 0 in
        binary_round_aux prec emax neg q e l
  | _ => S754_zero neg
  end.

Definition of_chars (s : list ascii) : option spec_float :=
  s1 ← drop_underscores "000" (to_ascii_space <$> s);
  let '(neg, body) := split_sign (strip s1) in
  let word := string_of_list_ascii (to_lower <$> body) in
  if String.eqb word "inf" || String.eqb word "infinity" then Some (S754_infinity neg)
  else if String.eqb word "nan" then Some S754_nan
  else '(d, x) ← parse_numeral body; Some (of_decimal neg d x).

(** [float(s)] for a [str]: [ValueError] when [s] is not a numeral. *)
Definition of_str (s : string) : result spec_float :=
  match of_chars (list_ascii_of_string s) with
  | Some f => Return f
  | None => Raise (Uncaught ValueError)
  end.

(** [float(n)] for an [int]: the nearest binary64 number, ties to even,
    [OverflowError] when that is out of range. *)
Definition of_int (n : Z) : result spec_float :=
  match binary_normalize prec emax n 0 false with
  | S754_infinity _ => Raise (Uncaught OverflowError)
  | f => Return f
  end.

(** [float(v)]: a [float] is returned as it is, a [bool] is an [int],
    anything that is neither a number nor a [str] is a [TypeError]. *)
Definition float (v : value) : result spec_float :=
  match v with
  | VFloat f => Return f
  | VInt n => of_int n
  | VBool b => of_int (if b then 1 else 0)
  | VStr s => of_str s
  | VNone | VList _ | VDict _ => Raise (Uncaught TypeError)
  end.

(** The integer nearest to [m * 2^e], ties to even. *)
Definition nearest_even (m : positive) (e : Z) : Z :=
  if 0 <=? e then Zpos m * 2 ^ e
  else
    let d := 2 ^ (- e) in
    let q := Zpos m / d in
    match 2 * (Zpos m mod d) ?= d with
    | Lt => q
    | Gt => q + 1
    | Eq => if Z.even q then q else q + 1
    end.

(** [round(x)] with one argument, for a [float]: an [int]; [OverflowError]
    on an infinity and [ValueError] on a NaN. *)
Definition round (x : spec_float) : result Z :=
  match x with
  | S754_zero _ => Return 0
  | S754_finite s m e => Return (if s then - nearest_even m e else nearest_even m e)
  | S754_infinity _ => Raise (Uncaught OverflowError)
  | S754_nan => Raise (Uncaught ValueError)
  end.

End PyFloat.

(** ** Operations on values used by the handlers *)

Module PyOps.

(** [needle in hay] for two [str]: [needle] occurs in [hay]. *)
Fixpoint str_contains (needle hay : string) : bool :=
  String.prefix needle hay ||
  match hay with
  | String _ rest => str_contains needle rest
  | EmptyString => false
  end.

(** [key in data] for a [str] key: a key of a [dict], an element of a
    [list], a substring of a [str]; the other values are not iterable. *)
Definition contains (key : string) (data : value) : result bool :=
  match data with
  | VDict d => Return (bool_decide (is_Some (d !! key)))
  | VList l =>
      Return (existsb (fun x => match x with VStr s => String.eqb s key | _ => false end) l)
  | VStr s => Return (str_contains key s)
  | VNone | VBool _ | VInt _ | VFloat _ => Raise (Uncaught TypeError)
  end.

(** [data[key]] for a [str] key. *)
Definition getitem (data : value) (key : string) : result value :=
  match data with
  | VDict d =>
      match d !! key with
      | Some v => Return v
      | None => Raise (Uncaught KeyError)
      end
  | _ => Raise (Uncaught TypeError)
  end.

(** [data.get(key, default)]: only a [dict] has the method. *)
Definition get (data : value) (key : string) (dflt : value) : result value :=
  match data with
  | VDict d => Return (from_option id dflt (d !! key))
  | _ => Raise (Uncaught AttributeError)
  end.

(** [format(x)] of an [Optional[str]] inside an f-string. *)
Definition format_optional (x : option string) : string :=
  match x with
  | Some s => s
  | None => "None"
  end.

(** [x or default] for an [Optional[str]]: [None] and the empty [str] are
    false. *)
Definition str_or (x : option string) (dflt : string) : string :=
  match x with
  | Some s => if String.eqb s "" then dflt else s
  | None => dflt
  end.

End PyOps.

(** ** JSON texts

    The grammar of RFC 8259, as a recogniser: a text is JSON when it is one
    value between optional white space.  [json.loads] accepts these texts
    and, with the default settings [main.py] uses, the three constants
    [NaN], [Infinity] and [-Infinity] as well, which are not JSON. *)

Module Json.

Definition is_ws (c : ascii) : bool :=
  let n := PyFloat.code c in (n =? 32) || (n =? 9) || (n =? 10) || (n =? 13).

Definition is_hex (c : ascii) : bool :=
  let n := PyFloat.code c in
  ((48 <=? n) && (n <=? 57)) || ((65 <=? n) && (n <=? 70)) || ((97 <=? n) && (n <=? 102)).

Fixpoint skip_ws (s : list ascii) : list ascii :=
  match s with
  | c :: rest => if is_ws c then skip_ws rest else s
  | [] => []
  end.

(** [s] after the literal [word], when [s] starts with it. *)
Fixpoint after (word s : list ascii) : option (list ascii) :=
  match word, s with
  | [], _ => Some s
  | w :: word', c :: rest => if Ascii.eqb w c then after word' rest else None
  | _ :: _, [] => None
  end.

(** The characters of a string after its opening quote, up to and with the
    closing quote: no control character, and after a backslash one of
    the nine escapes, [u] with four hexadecimal digits. *)
Fixpoint string_tail (s : list ascii) : option (list ascii) :=
  match s with
  | [] => None
  | c :: rest =>
      if Ascii.eqb c "034" then Some rest
      else if Ascii.eqb c "\" then
        match rest with
        | e :: rest' =>
            if Ascii.eqb e "u" then
              match rest' with
              | h1 :: h2 :: h3 :: h4 :: rest'' =>
                  if is_hex h1 && is_hex h2 && is_hex h3 && is_hex h4
                  then string_tail rest'' else None
              | _ => None
              end
            else if Ascii.eqb e "034" || Ascii.eqb e "\" || Ascii.eqb e "/"
                    || Ascii.eqb e "b" || Ascii.eqb e "f" || Ascii.eqb e "n"
                    || Ascii.eqb e "r" || Ascii.eqb e "t"
            then string_tail rest' else None
        | [] => None
        end
      else if PyFloat.code c <? 32 then None
      else string_tail rest
  end.

(** One or more digits. *)
Definition digits1 (s : list ascii) : option (list ascii) :=
  match PyFloat.span_digits s with
  | (_ :: _, rest) => Some rest
  | ([], _) => None
  end.

(** An optional minus; a zero, or a digit from 1 to 9 and any digits; an
    optional point with one digit or more; an optional exponent, [e] or
    [E], an optional sign and one digit or more. *)
Definition number (s : list ascii) : option (list ascii) :=
  let s1 := match s with
            | c :: rest => if Ascii.eqb c "-" then rest else s
            | [] => s
            end in
  r1 ← match s1 with
       | c :: rest =>
           if Ascii.eqb c "0" then Some rest
           else if PyFloat.is_digit c then Some (snd (PyFloat.span_digits rest))
           else None
       | [] => None
       end;
  r2 ← match r1 with
       | c :: rest => if Ascii.eqb c "." then digits1 rest else Some r1
       | [] => Some r1
       end;
  match r2 with
  | c :: rest =>
      if Ascii.eqb c "e" || Ascii.eqb c "E" then
        match rest with
        | sg :: rest' =>
            if Ascii.eqb sg "+" || Ascii.eqb sg "-" then digits1 rest' else digits1 rest
        | [] => None
        end
      else Some r2
  | [] => Some r2
  end.

(** What is left of [s] after one value; [elements] and [members] read the
    inside of an array and of an object after the first white space.  The
    [fuel] bounds the nesting and the number of items. *)
Fixpoint value (fuel : nat) (s : list ascii) : option (list ascii) :=
  match fuel with
  | O => None
  | S fuel' =>
      match s with
      | [] => None
      | c :: rest =>
          if Ascii.eqb c "{" then
            match skip_ws rest with
            | c' :: rest' =>
                if Ascii.eqb c' "}" then Some rest' else members fuel' (c' :: rest')
            | [] => None
            end
          else if Ascii.eqb c "[" then
            match skip_ws rest with
            | c' :: rest' =>
                if Ascii.eqb c' "]" then Some rest' else elements fuel' (c' :: rest')
            | [] => None
            end
          else if Ascii.eqb c "034" then string_tail rest
          else if Ascii.eqb c "t" then after (list_ascii_of_string "rue") rest
          else if Ascii.eqb c "f" then after (list_ascii_of_string "alse") rest
          else if Ascii.eqb c "n" then after (list_ascii_of_string "ull") rest
          else number s
      end
  end
with elements (fuel : nat) (s : list ascii) : option (list ascii) :=
  match fuel with
  | O => None
  | S fuel' =>
      r ← value fuel' s;
      match skip_ws r with
      | c :: rest =>
          if Ascii.eqb c "]" then Some rest
          else if Ascii.eqb c "," then elements fuel' (skip_ws rest)
          else None
      | [] => None
      end
  end
with members (fuel : nat) (s : list ascii) : option (list ascii) :=
  match fuel with
  | O => None
  | S fuel' =>
      match s with
      | c :: rest =>
          if Ascii.eqb c "034" then
            r ← string_tail rest;
            match skip_ws r with
            | c' :: rest' =>
                if Ascii.eqb c' ":" then
                  r' ← value fuel' (skip_ws rest');
                  match skip_ws r' with
                  | c'' :: rest'' =>
                      if Ascii.eqb c'' "}" then Some rest''
                      else if Ascii.eqb c'' "," then members fuel' (skip_ws rest'')
                      else None
                  | [] => None
                  end
                else None
            | [] => None
            end
          else None
      | [] => None
      end
  end.

(** The text is JSON. *)
Definition valid (text : string) : bool :=
  let s := list_ascii_of_string text in
  match value (2 * S (List.length s)) (skip_ws s) with
  | Some rest => match skip_ws rest with [] => true | _ :: _ => false end
  | None => false
  end.

End Json.

(** ** The pydantic models of [main.py] *)

(** A field of a request body as the client sent it: left out, [null], or
    given.  A field declared [Optional[T] = d] takes [d] when it is left
    out and [None] when it is [null]. *)
Inductive field (A : Type) : Type :=
  | Omitted
  | Null
  | Given (a : A).
Global Arguments Omitted {A}.
Global Arguments Null {A}.
Global Arguments Given {A} a.

Definition optional_field {A} (dflt : option A) (f : field A) : option A :=
  match f with
  | Omitted => dflt
  | Null => None
  | Given a => Some a
  end.

Module JobInfo.
Record t : Type := new {
  company : string;
  role_title : string;
  location : option string;
  job_description : string;
  job_url : option string;
}.
End JobInfo.

Module ResumeInfo.
Record t : Type := new {
  name : string;
  text : string;
}.
End ResumeInfo.

Module ExtrasInfo.
Record t : Type := new {
  tone : option string;
  length : option string;
  focus_points : option (list string);
}.

(** The body of an [extras] object before validation. *)
Record body : Type := Body {
  body_tone : field string;
  body_length : field string;
  body_focus_points : field (list string);
}.

Definition validate (b : body) : t :=
  {| tone := optional_field (Some "professional but conversational") (body_tone b);
     length := optional_field (Some "3 paragraphs") (body_length b);
     focus_points := optional_field None (body_focus_points b) |}.

(** [ExtrasInfo()] *)
Definition default : t := validate (Body Omitted Omitted Omitted).
End ExtrasInfo.

Module ScoreResumeRequest.
Record t : Type := new {
  job : JobInfo.t;
  resume : ResumeInfo.t;
}.
End ScoreResumeRequest.

Module GenerateCLRequest.
Record t : Type := new {
  job : JobInfo.t;
  resume : ResumeInfo.t;
  extras : option ExtrasInfo.t;
}.

(** The body of a cover-letter request before validation. *)
Record body : Type := Body {
  body_job : JobInfo.t;
  body_resume : ResumeInfo.t;
  body_extras : field ExtrasInfo.body;
}.

Definition validate (b : body) : t :=
  {| job := body_job b;
     resume := body_resume b;
     extras := optional_field None
                 (match body_extras b with
                  | Given e => Given (ExtrasInfo.validate e)
                  | Null => Null
                  | Omitted => Omitted
                  end) |}.
End GenerateCLRequest.

(** Validation of the response models.  Both major versions of pydantic
  take a [str] for a [str] field and a [list] for a [List[str]] field
  and refuse [None] for a field that is not [Optional]; what a [str]
  field does with a number depends on the version (pydantic 2 refuses
  it, pydantic 1 takes its text) and is the parameter [coerce_str]. *)
Section Validation.
Variable coerce_str : value -> option string.

Definition validate_str (v : value) : option string :=
  match v with
  | VStr s => Some s
  | VBool _ | VInt _ | VFloat _ => coerce_str v
  | VNone | VList _ | VDict _ => None
  end.

Definition validate_list_str (v : value) : option (list string) :=
  match v with
  | VList l => mapM validate_str l
  | _ => None
  end.

Definition validate_optional_str (v : value) : option (option string) :=
  match v with
  | VNone => Some None
  | _ => Some <$> validate_str v
  end.
End Validation.

Module ScoreResumeResponse.
Record t : Type := mk {
  match_score : Z;
  top_keywords : list string;
  missing_or_weak_keywords : list string;
  suggested_resume_edits : string;
}.

(** [ScoreResumeResponse(match_score=.., top_keywords=.., ..)] *)
Definition new (coerce_str : value -> option string)
    (match_score : Z) (top_keywords missing_or_weak_keywords suggested_resume_edits : value)
    : result t :=
  match validate_list_str coerce_str top_keywords,
        validate_list_str coerce_str missing_or_weak_keywords,
        validate_str coerce_str suggested_resume_edits with
  | Some tk, Some mk_, Some se => Return (mk match_score tk mk_ se)
  | _, _, _ => Raise (Uncaught ValidationError)
  end.
End ScoreResumeResponse.

Module GenerateCLResponse.
Record t : Type := mk {
  cover_letter_text : string;
  summary : option string;
}.

(** [GenerateCLResponse(cover_letter_text=.., summary=..)] *)
Definition new (coerce_str : value -> option string)
    (cover_letter_text summary : value) : result t :=
  match validate_str coerce_str cover_letter_text,
        validate_optional_str coerce_str summary with
  | Some c, Some s => Return (mk c s)
  | _, _ => Raise (Uncaught ValidationError)
  end.
End GenerateCLResponse.

(** ** Prompt templates *)

Module Prompt.

Definition nl : string := String "010" "".
Definition dq : string := String "034" "".

(** The lines of a triple-quoted template, joined by newlines. *)
Definition lines (l : list string) : string := String.concat nl l.

(** [s] between double quotes. *)
Definition q (s : string) : string := dq +:+ s +:+ dq.

(** The f-string of [score_resume]. *)
Definition score_resume (job : JobInfo.t) (resume : ResumeInfo.t) : string :=
  lines [
    "";
    "You are acting as an ATS style resume evaluator.";
    "";
    "Job description:";
    JobInfo.job_description job;
    "";
    "Candidate resume:";
    ResumeInfo.text resume;
    "";
    "Tasks:";
    "1. Give an overall match score from 0 to 100, where 100 means the resume is an excellent match.";
    "2. List the 10 to 15 most important skills, keywords, or phrases from the job description that a hiring manager would expect in a strong resume for this role.";
    "3. Identify which of those keywords or skills are missing or only weakly represented in the resume.";
    "4. Suggest specific edits to the resume that would improve the match, including examples of bullet point changes or additions.";
    "";
    "Respond in valid JSON only, with this structure:";
    "";
    "{";
    "  " +:+ q "match_score" +:+ ": number,";
    "  " +:+ q "top_keywords" +:+ ": [ " +:+ q "keyword1" +:+ ", " +:+ q "keyword2" +:+ ", ... ],";
    "  " +:+ q "missing_or_weak_keywords" +:+ ": [ " +:+ q "kwA" +:+ ", " +:+ q "kwB" +:+ ", ... ],";
    "  " +:+ q "suggested_resume_edits" +:+ ": " +:+ q "string with concrete suggestions";
    "}";
    ""
  ].

(** The f-string of [generate_cover_letter], in three parts: the lines
    before the guidelines, the three guideline lines, the lines after. *)
Definition cover_letter_head (job : JobInfo.t) (resume : ResumeInfo.t) : list string :=
  [ "";
    "You are a job application assistant that writes tailored cover letters.";
    "";
    "Job description:";
    JobInfo.job_description job;
    "";
    "Company: " +:+ JobInfo.company job;
    "Role title: " +:+ JobInfo.role_title job;
    "Location: " +:+ PyOps.str_or (JobInfo.location job) "N/A";
    "";
    "Candidate resume:";
    ResumeInfo.text resume;
    "";
    "Write a cover letter with the following guidelines:" ].

Definition cover_letter_guidelines (extras : ExtrasInfo.t) (focus_points_text : string)
    : list string :=
  [ "- Tone: " +:+ PyOps.format_optional (ExtrasInfo.tone extras);
    "- Length: " +:+ PyOps.format_optional (ExtrasInfo.length extras);
    "- " +:+ focus_points_text ].

Definition cover_letter_tail : list string :=
  [ "";
    "The cover letter should highlight the candidate's most relevant experience and skills for this specific role and company. It should sound natural and professional.";
    "";
    "Respond in valid JSON only, with this structure:";
    "";
    "{";
    "  " +:+ q "cover_letter_text" +:+ ": " +:+ q "full cover letter text here" +:+ ",";
    "  " +:+ q "summary" +:+ ": " +:+ q "one sentence summary of why this candidate is a strong fit";
    "}";
    "" ].

Definition cover_letter (job : JobInfo.t) (resume : ResumeInfo.t)
    (extras : ExtrasInfo.t) (focus_points_text : string) : string :=
  lines (cover_letter_head job resume
         ++ cover_letter_guidelines extras focus_points_text
         ++ cover_letter_tail).

End Prompt.

(** ** The provider and [json.loads]

    Both are outside [main.py].  An instance of [Exception] raised inside
    the [try] of [call_openai_for_json] matters to the code through two
    things only: whether it is a [json.JSONDecodeError], and its [str].
    A call may also end in an exception that is no instance of
    [Exception], known by the name of its class: [Interrupted]. *)

Module Provider.

(** An instance of [Exception]. *)
Record exception : Type := Exception {
  is_JSONDecodeError : bool;
  message : string;   (* str(e) *)
}.

Inductive outcome (A : Type) : Type :=
  | Ok (a : A)
  | Raised (e : exception)
  | Interrupted (name : string).
Global Arguments Ok {A} a.
Global Arguments Raised {A} e.
Global Arguments Interrupted {A} name.

Global Instance outcome_bind : MBind outcome := fun _ _ k m =>
  match m with
  | Ok a => k a
  | Raised e => Raised e
  | Interrupted name => Interrupted name
  end.

(** A response of [client.responses.create]: the text at
    [response.output[0].content[0].text], [None] when reading that path
    raises an [Exception], and [str(response)]. *)
Record response : Type := Response {
  output_text : option string;
  as_str : string;
}.

End Provider.

(** ** The gateway and the two handlers *)

Section Service.

(** pydantic's treatment of a number given to a [str] field *)
Variable coerce_str : value -> option string.
(** [client.responses.create(model=.., input=..)] *)
Variable responses_create : string -> string -> Provider.outcome Provider.response.
(** [json.loads] *)
Variable json_loads : string -> Provider.outcome value.

Definition text_output (response : Provider.response) : string :=
  match Provider.output_text response with
  | Some text => text
  | None => Provider.as_str response
  end.

(** The two [except] clauses, in order: [except json.JSONDecodeError] and
    [except Exception as e]. *)
Definition on_exception (e : Provider.exception) : exn :=
  if Provider.is_JSONDecodeError e then
    HTTPException 500 "OpenAI did not return valid JSON. Check the prompt or response."
  else
    HTTPException 500 ("Error while calling OpenAI: " +:+ Provider.message e).

Definition call_openai_for_json (prompt : string) : result value :=
  match
    response ← responses_create "gpt-4.1-mini" prompt;
    json_loads (text_output response)
  with
  | Provider.Ok data => Return data
  | Provider.Raised e => Raise (on_exception e)
  | Provider.Interrupted name => Raise (Uncaught (NotException name))
  end.

Definition required_keys : list string :=
  [ "match_score"; "top_keywords"; "missing_or_weak_keywords"; "suggested_resume_edits" ].

(** [for key in keys: if key not in data: raise HTTPException(..)] *)
Fixpoint check_keys (keys : list string) (data : value) : result unit :=
  match keys with
  | [] => Return tt
  | key :: rest =>
      present ← PyOps.contains key data;
      if present : bool then check_keys rest data
      else Raise (HTTPException 500 ("Missing key in OpenAI response: " +:+ key))
  end.

(** [score_resume] from the line after the gateway call on. *)
Definition score_resume_data (data : value) : result ScoreResumeResponse.t :=
  _ ← check_keys required_keys data;
  raw ← PyOps.getitem data "match_score";
  x ← PyFloat.float raw;
  match_score ← PyFloat.round x;
  top_keywords ← PyOps.get data "top_keywords" (VList []);
  missing_or_weak_keywords ← PyOps.get data "missing_or_weak_keywords" (VList []);
  suggested_resume_edits ← PyOps.get data "suggested_resume_edits" (VStr "");
  ScoreResumeResponse.new coerce_str match_score
    top_keywords missing_or_weak_keywords suggested_resume_edits.

Definition score_resume (payload : ScoreResumeRequest.t) : result ScoreResumeResponse.t :=
  let job := ScoreResumeRequest.job payload in
  let resume := ScoreResumeRequest.resume payload in
  let prompt := Prompt.score_resume job resume in
  data ← call_openai_for_json prompt;
  score_resume_data data.

(** [payload.extras or ExtrasInfo()]: a model instance is never false. *)
Definition extras_or_default (payload : GenerateCLRequest.t) : ExtrasInfo.t :=
  match GenerateCLRequest.extras payload with
  | Some extras => extras
  | None => ExtrasInfo.default
  end.

Definition focus_points_text (extras : ExtrasInfo.t) : string :=
  match ExtrasInfo.focus_points extras with
  | Some (p :: ps) => "Focus on these points: " +:+ String.concat ", " (p :: ps)
  | Some [] | None => ""
  end.

Definition cover_letter_prompt (payload : GenerateCLRequest.t) : string :=
  let job := GenerateCLRequest.job payload in
  let resume := GenerateCLRequest.resume payload in
  let extras := extras_or_default payload in
  Prompt.cover_letter job resume extras (focus_points_text extras).

(** [generate_cover_letter] from the line after the gateway call on. *)
Definition generate_cover_letter_data (data : value) : result GenerateCLResponse.t :=
  present ← PyOps.contains "cover_letter_text" data;
  if present : bool then
    cover_letter_text ← PyOps.get data "cover_letter_text" (VStr "");
    summary ← PyOps.get data "summary" VNone;
    GenerateCLResponse.new coerce_str cover_letter_text summary
  else Raise (HTTPException 500 "Missing 'cover_letter_text' in OpenAI response").

Definition generate_cover_letter (payload : GenerateCLRequest.t)
    : result GenerateCLResponse.t :=
  data ← call_openai_for_json (cover_letter_prompt payload);
  generate_cover_letter_data data.

End Service.

(** ** Test doubles

    A provider that answers every prompt with one text, a [json.loads]
    that knows one text, and the [str] validation of pydantic 2. *)

Module Stub.

Definition strict : value -> option string := fun _ => None.

Definition create (text : string)
    : string -> string -> Provider.outcome Provider.response :=
  fun _ _ => Provider.Ok (Provider.Response (Some text) "").

Definition loads (text : string) (v : value) : string -> Provider.outcome value :=
  fun s =>
    if String.eqb s text then Provider.Ok v
    else Provider.Raised (Provider.Exception true "Expecting value").

Definition job : JobInfo.t :=
  JobInfo.new "Acme" "Engineer" None "Python, SQL" None.

Definition resume : ResumeInfo.t := ResumeInfo.new "A" "5 years Python".

Definition score_request : ScoreResumeRequest.t := ScoreResumeRequest.new job resume.



(** An answer with the four keys and a score of 82.6. *)
Definition scenario_text : string :=
  "{" +:+ Prompt.q "match_score" +:+ ": 82.6, "
      +:+ Prompt.q "top_keywords" +:+ ": [" +:+ Prompt.q "Python" +:+ ", " +:+ Prompt.q "SQL" +:+ "], "
      +:+ Prompt.q "missing_or_weak_keywords" +:+ ": [" +:+ Prompt.q "SQL" +:+ "], "
      +:+ Prompt.q "suggested_resume_edits" +:+ ": " +:+ Prompt.q "Add SQL examples." +:+ "}".

Definition scenario : gmap string value :=
  list_to_map [ ("match_score", VFloat (PyFloat.of_decimal false 826 (-1)));
                ("top_keywords", VList [VStr "Python"; VStr "SQL"]);
                ("missing_or_weak_keywords", VList [VStr "SQL"]);
                ("suggested_resume_edits", VStr "Add SQL examples.") ].

(** The same answer with the suggested edits as a list of one string. *)
Definition edits_list_text : string :=
  "{" +:+ Prompt.q "match_score" +:+ ": 82.6, "
      +:+ Prompt.q "top_keywords" +:+ ": [" +:+ Prompt.q "Python" +:+ ", " +:+ Prompt.q "SQL" +:+ "], "
      +:+ Prompt.q "missing_or_weak_keywords" +:+ ": [" +:+ Prompt.q "SQL" +:+ "], "
      +:+ Prompt.q "suggested_resume_edits" +:+ ": [" +:+ Prompt.q "Add SQL examples." +:+ "]}".

Definition edits_list : gmap string value :=
  <["suggested_resume_edits" := VList [VStr "Add SQL examples."]]> scenario.

(** The same answer with [null] for the top keywords. *)
Definition null_keywords_text : string :=
  "{" +:+ Prompt.q "match_score" +:+ ": 82.6, "
      +:+ Prompt.q "top_keywords" +:+ ": null, "
      +:+ Prompt.q "missing_or_weak_keywords" +:+ ": [" +:+ Prompt.q "SQL" +:+ "], "
      +:+ Prompt.q "suggested_resume_edits" +:+ ": " +:+ Prompt.q "Add SQL examples." +:+ "}".

Definition null_keywords : gmap string value :=
  <["top_keywords" := VNone]> scenario.

(** The same answer with a word for the score. *)
Definition high_score_text : string :=
  "{" +:+ Prompt.q "match_score" +:+ ": " +:+ Prompt.q "high" +:+ ", "
      +:+ Prompt.q "top_keywords" +:+ ": [" +:+ Prompt.q "Python" +:+ ", " +:+ Prompt.q "SQL" +:+ "], "
      +:+ Prompt.q "missing_or_weak_keywords" +:+ ": [" +:+ Prompt.q "SQL" +:+ "], "
      +:+ Prompt.q "suggested_resume_edits" +:+ ": " +:+ Prompt.q "Add SQL examples." +:+ "}".

Definition high_score : gmap string value :=
  <["match_score" := VStr "high"]> scenario.

(** A cover-letter request without [extras], and an answer to it without
    a summary. *)
Definition letter_body : GenerateCLRequest.body :=
  GenerateCLRequest.Body job resume Omitted.

Definition letter_request : GenerateCLRequest.t := GenerateCLRequest.validate letter_body.

Definition letter_text : string :=
  "{" +:+ Prompt.q "cover_letter_text" +:+ ": " +:+ Prompt.q "Dear Acme team" +:+ "}".

Definition letter : gmap string value :=
  list_to_map [ ("cover_letter_text", VStr "Dear Acme team") ].

(** A cover-letter request whose [extras] has a [null] tone, a [null]
    length and three focus points. *)
Definition null_tone_body : GenerateCLRequest.body :=
  GenerateCLRequest.Body job resume
    (Given (ExtrasInfo.Body Null Null (Given ["Python"; "SQL"; "teamwork"]))).

(** The scenario with one more key whose value is the constant [NaN]:
    a text that is not JSON, and what [json.loads] makes of it. *)
Definition nan_text : string :=
  "{" +:+ Prompt.q "match_score" +:+ ": 82.6, "
      +:+ Prompt.q "top_keywords" +:+ ": [" +:+ Prompt.q "Python" +:+ ", " +:+ Prompt.q "SQL" +:+ "], "
      +:+ Prompt.q "missing_or_weak_keywords" +:+ ": [" +:+ Prompt.q "SQL" +:+ "], "
      +:+ Prompt.q "suggested_resume_edits" +:+ ": " +:+ Prompt.q "Add SQL examples." +:+ ", "
      +:+ Prompt.q "confidence" +:+ ": NaN}".

Definition nan_answer : gmap string value :=
  <["confidence" := VFloat S754_nan]> scenario.

(** A provider that cannot be reached: every call raises an exception
    with the given message that is not a [JSONDecodeError]. *)
Definition unreachable (msg : string)
    : string -> string -> Provider.outcome Provider.response :=
  fun _ _ => Provider.Raised (Provider.Exception false msg).

(** A provider whose response has no text at the expected path. *)
Definition create_without_text (as_str : string)
    : string -> string -> Provider.outcome Provider.response :=
  fun _ _ => Provider.Ok (Provider.Response None as_str).

(** The scenario with a score too large for a [float] to hold. *)
Definition overflow_score_text : string :=
  "{" +:+ Prompt.q "match_score" +:+ ": " +:+ Prompt.q "1e400" +:+ ", "
      +:+ Prompt.q "top_keywords" +:+ ": [" +:+ Prompt.q "Python" +:+ ", " +:+ Prompt.q "SQL" +:+ "], "
      +:+ Prompt.q "missing_or_weak_keywords" +:+ ": [" +:+ Prompt.q "SQL" +:+ "], "
      +:+ Prompt.q "suggested_resume_edits" +:+ ": " +:+ Prompt.q "Add SQL examples." +:+ "}".

Definition overflow_score : gmap string value :=
  <["match_score" := VStr "1e400"]> scenario.

(** The scenario with one more key. *)
Definition with_notes : gmap string value :=
  <["notes" := VStr "Good fit."]> scenario.

(** The scenario with an integer score above 100. *)
Definition big_score : gmap string value :=
  <["match_score" := VInt 4503599627370497]> scenario.

(** An answer that is a JSON string holding the object's text. *)
Definition encoded_twice : string :=
  "{match_score: 82, top_keywords: [], missing_or_weak_keywords: [], suggested_resume_edits: none}".

(** A cover-letter answer with a summary, one with a [null] text, and one
    with a further key. *)
Definition letter_with_summary : gmap string value :=
  <["summary" := VStr "A strong fit."]> letter.

Definition letter_null_text : gmap string value :=
  <["cover_letter_text" := VNone]> letter.

Definition letter_with_notes : gmap string value :=
  <["notes" := VStr "Draft 1."]> letter.

Definition letter_null_text_json : string :=
  "{" +:+ Prompt.q "cover_letter_text" +:+ ": null}".

Definition letter_with_summary_json : string :=
  "{" +:+ Prompt.q "cover_letter_text" +:+ ": " +:+ Prompt.q "Dear Acme team" +:+ ", "
      +:+ Prompt.q "summary" +:+ ": " +:+ Prompt.q "A strong fit." +:+ "}".

(** The stub request under another candidate name and with a job URL. *)
Definition score_request_renamed : ScoreResumeRequest.t :=
  ScoreResumeRequest.new
    (JobInfo.new "Other" "Analyst" (Some "Berlin") "Python, SQL" (Some "https://example.org/job"))
    (ResumeInfo.new "B" "5 years Python").


End Stub.

(** ** Properties of the presence check *)

Lemma check_keys_dict_ok (keys : list string) (d : gmap string value) :
  (forall k, In k keys -> is_Some (d !! k)) ->
  check_keys keys (VDict d) = Return tt.
Proof.
  induction keys as [|key rest IH]; intros Hall; [reflexivity|].
  cbn [check_keys PyOps.contains mbind result_bind].
  rewrite bool_decide_eq_true_2 by (apply Hall; left; reflexivity).
  apply IH. intros k Hk. apply Hall. right. exact Hk.
Qed.



(** ** The score-resume handler on the gateway's mapping *)

(** What the handler does with the gateway's answer. *)
Lemma score_resume_unfold coerce_str responses_create json_loads payload data :
  call_openai_for_json responses_create json_loads
    (Prompt.score_resume (ScoreResumeRequest.job payload) (ScoreResumeRequest.resume payload))
  = Return data ->
  score_resume coerce_str responses_create json_loads payload
  = score_resume_data coerce_str data.
Proof. intros H. unfold score_resume. cbn zeta. rewrite H. reflexivity. Qed.



Lemma score_resume_data_present coerce_str (d : gmap string value) raw tk mk se :
  d !! "match_score" = Some raw ->
  d !! "top_keywords" = Some tk ->
  d !! "missing_or_weak_keywords" = Some mk ->
  d !! "suggested_resume_edits" = Some se ->
  score_resume_data coerce_str (VDict d)
  = (x ← PyFloat.float raw; n ← PyFloat.round x;
     ScoreResumeResponse.new coerce_str n tk mk se).
Proof.
  intros Hs Ht Hm He. unfold score_resume_data.
  rewrite check_keys_dict_ok.
  - unfold PyOps.getitem, PyOps.get. rewrite Hs, Ht, Hm, He.
    cbn [mbind result_bind]. destruct (PyFloat.float raw) as [x|e]; [|reflexivity].
    cbn [mbind result_bind]. destruct (PyFloat.round x); reflexivity.
  - intros k [<-|[<-|[<-|[<-|[]]]]]; eexists; eassumption.
Qed.

Lemma validate_list_str_strings coerce_str (l : list string) :
  validate_list_str coerce_str (VList (VStr <$> l)) = Some l.
Proof.
  unfold validate_list_str. induction l as [|s l IH]; [reflexivity|].
  rewrite fmap_cons. cbn [mapM validate_str mbind option_bind].
  rewrite IH. reflexivity.
Qed.

(** C2, as amended. When the mapping the gateway returned has the four
    required keys, [float] and [round] accept its [match_score] value (a
    finite number or the numeral of one), its [top_keywords] and
    [missing_or_weak_keywords] values are lists of strings and its
    [suggested_resume_edits] value is a string, [score_resume] returns a
    result whose [match_score] is [round(float(value))], whatever its
    size, and whose other three fields are the mapping's, in order. *)
Theorem score_resume_rounds_and_preserves
    coerce_str responses_create json_loads payload (d : gmap string value)
    raw x n (tk mk : list string) (se : string) :
  call_openai_for_json responses_create json_loads
    (Prompt.score_resume (ScoreResumeRequest.job payload) (ScoreResumeRequest.resume payload))
  = Return (VDict d) ->
  d !! "match_score" = Some raw ->
  PyFloat.float raw = Return x ->
  PyFloat.round x = Return n ->
  d !! "top_keywords" = Some (VList (VStr <$> tk)) ->
  d !! "missing_or_weak_keywords" = Some (VList (VStr <$> mk)) ->
  d !! "suggested_resume_edits" = Some (VStr se) ->
  score_resume coerce_str responses_create json_loads payload
  = Return (ScoreResumeResponse.mk n tk mk se).
Proof.
  intros Hcall Hs Hx Hn Ht Hm He.
  rewrite (score_resume_unfold _ _ _ _ _ Hcall).
  rewrite (score_resume_data_present _ _ _ _ _ _ Hs Ht Hm He), Hx.
  cbn [mbind result_bind]. rewrite Hn. cbn [mbind result_bind].
  unfold ScoreResumeResponse.new. rewrite !validate_list_str_strings. reflexivity.
Qed.

Lemma score_resume_rounds_and_preserves_witness :
  score_resume Stub.strict (Stub.create Stub.scenario_text)
    (Stub.loads Stub.scenario_text (VDict Stub.scenario)) Stub.score_request
  = Return (ScoreResumeResponse.mk 83 ["Python"; "SQL"] ["SQL"] "Add SQL examples.").
Proof.
  apply (score_resume_rounds_and_preserves Stub.strict
           (Stub.create Stub.scenario_text)
           (Stub.loads Stub.scenario_text (VDict Stub.scenario))
           Stub.score_request Stub.scenario
           (VFloat (PyFloat.of_decimal false 826 (-1)))
           (PyFloat.of_decimal false 826 (-1)) 83
           ["Python"; "SQL"] ["SQL"] "Add SQL examples.");
    reflexivity.
Defined.

(** The score is not clamped to 0..100, and a tie goes to the even
    neighbour. *)
Example round_float_out_of_range :
  (x ← PyFloat.float (VStr "250.5"); PyFloat.round x) = Return 250 /\
  (x ← PyFloat.float (VStr " -7.5 "); PyFloat.round x) = Return (-8) /\
  (x ← PyFloat.float (VInt 1000); PyFloat.round x) = Return 1000 /\
  (x ← PyFloat.float (VStr "1e3"); PyFloat.round x) = Return 1000.
Proof. repeat split; vm_compute; reflexivity. Qed.

(** [float] and [round] are partial on numbers too. *)
Example round_float_not_finite :
  (x ← PyFloat.float (VFloat S754_nan); PyFloat.round x) = Raise (Uncaught ValueError) /\
  (x ← PyFloat.float (VStr "1e400"); PyFloat.round x) = Raise (Uncaught OverflowError) /\
  (x ← PyFloat.float (VInt (10 ^ 400)); PyFloat.round x) = Raise (Uncaught OverflowError).
Proof. repeat split; vm_compute; reflexivity. Qed.

(** C2, counterexample. The mapping has the four keys, a score of 82.6
    and two lists of strings, but its suggested edits are a list: the
    response model refuses it and the handler returns no result. *)
Lemma score_resume_edits_list_counterexample :
  (forall k, In k required_keys -> is_Some (Stub.edits_list !! k)) /\
  (exists raw x, Stub.edits_list !! "match_score" = Some raw /\
     PyFloat.float raw = Return x /\ PyFloat.round x = Return 83) /\
  Stub.edits_list !! "top_keywords" = Some (VList [VStr "Python"; VStr "SQL"]) /\
  Stub.edits_list !! "missing_or_weak_keywords" = Some (VList [VStr "SQL"]) /\
  call_openai_for_json (Stub.create Stub.edits_list_text)
    (Stub.loads Stub.edits_list_text (VDict Stub.edits_list))
    (Prompt.score_resume Stub.job Stub.resume)
  = Return (VDict Stub.edits_list) /\
  (forall coerce_str,
     score_resume coerce_str (Stub.create Stub.edits_list_text)
       (Stub.loads Stub.edits_list_text (VDict Stub.edits_list)) Stub.score_request
     = Raise (Uncaught ValidationError)) /\
  ~ exists r,
      score_resume Stub.strict (Stub.create Stub.edits_list_text)
        (Stub.loads Stub.edits_list_text (VDict Stub.edits_list)) Stub.score_request
      = Return r.
Proof.
  split.
  { intros k [<-|[<-|[<-|[<-|[]]]]]; vm_compute; eexists; reflexivity. }
  split.
  { eexists _, _. split; [reflexivity|]. split; reflexivity. }
  repeat split; try reflexivity.
  intros [r Hr]. vm_compute in Hr. discriminate Hr.
Qed.

(** A response cannot be built from a [None] where a list or a string is
    required. *)
Lemma ScoreResumeResponse_new_none coerce_str n (tk mk se : value) :
  tk = VNone \/ mk = VNone \/ se = VNone ->
  ScoreResumeResponse.new coerce_str n tk mk se = Raise (Uncaught ValidationError).
Proof.
  unfold ScoreResumeResponse.new. intros [-> | [-> | ->]].
  - reflexivity.
  - destruct (validate_list_str coerce_str tk); reflexivity.
  - destruct (validate_list_str coerce_str tk), (validate_list_str coerce_str mk);
      reflexivity.
Qed.

(** C7, as amended. When the mapping the gateway returned has the four
    required keys and the value of [top_keywords], [missing_or_weak_keywords]
    or [suggested_resume_edits] is [null], [score_resume] returns no result:
    the [.get] defaults stand for absent keys only, the [None] reaches the
    response model, and once the score is coerced the handler raises
    pydantic's [ValidationError], which is not an [HTTPException]. *)
Theorem score_resume_null_field_raises
    coerce_str responses_create json_loads payload (d : gmap string value) :
  call_openai_for_json responses_create json_loads
    (Prompt.score_resume (ScoreResumeRequest.job payload) (ScoreResumeRequest.resume payload))
  = Return (VDict d) ->
  (forall k, In k required_keys -> is_Some (d !! k)) ->
  d !! "top_keywords" = Some VNone \/
  d !! "missing_or_weak_keywords" = Some VNone \/
  d !! "suggested_resume_edits" = Some VNone ->
  returns (score_resume coerce_str responses_create json_loads payload) = false /\
  (forall raw x n,
     d !! "match_score" = Some raw ->
     PyFloat.float raw = Return x ->
     PyFloat.round x = Return n ->
     score_resume coerce_str responses_create json_loads payload
     = Raise (Uncaught ValidationError)).
Proof.
  intros Hcall Hall Hnull.
  rewrite (score_resume_unfold _ _ _ _ _ Hcall).
  destruct (Hall "match_score") as [raw Hs]; [simpl; tauto|].
  destruct (Hall "top_keywords") as [tk Ht]; [simpl; tauto|].
  destruct (Hall "missing_or_weak_keywords") as [mk Hm]; [simpl; tauto|].
  destruct (Hall "suggested_resume_edits") as [se He]; [simpl; tauto|].
  rewrite (score_resume_data_present _ _ _ _ _ _ Hs Ht Hm He).
  assert (Hnone : tk = VNone \/ mk = VNone \/ se = VNone).
  { destruct Hnull as [H|[H|H]]; [left|right; left|right; right]; congruence. }
  split.
  - destruct (PyFloat.float raw) as [x|e]; [|reflexivity].
    cbn [mbind result_bind]. destruct (PyFloat.round x) as [n|e]; [|reflexivity].
    cbn [mbind result_bind]. rewrite ScoreResumeResponse_new_none by exact Hnone.
    reflexivity.
  - intros raw' x n Hs' Hx Hn. assert (raw' = raw) by congruence. subst raw'.
    rewrite Hx. cbn [mbind result_bind]. rewrite Hn. cbn [mbind result_bind].
    apply ScoreResumeResponse_new_none, Hnone.
Qed.

Lemma score_resume_null_field_raises_witness :
  returns (score_resume Stub.strict (Stub.create Stub.null_keywords_text)
             (Stub.loads Stub.null_keywords_text (VDict Stub.null_keywords))
             Stub.score_request) = false /\
  (forall raw x n,
     Stub.null_keywords !! "match_score" = Some raw ->
     PyFloat.float raw = Return x ->
     PyFloat.round x = Return n ->
     score_resume Stub.strict (Stub.create Stub.null_keywords_text)
       (Stub.loads Stub.null_keywords_text (VDict Stub.null_keywords))
       Stub.score_request
     = Raise (Uncaught ValidationError)).
Proof.
  apply (score_resume_null_field_raises Stub.strict
           (Stub.create Stub.null_keywords_text)
           (Stub.loads Stub.null_keywords_text (VDict Stub.null_keywords))
           Stub.score_request Stub.null_keywords).
  - reflexivity.
  - intros k [<-|[<-|[<-|[<-|[]]]]]; vm_compute; eexists; reflexivity.
  - left. reflexivity.
Defined.

(** C7, counterexample. The four keys are present and [top_keywords] is
    [null]: the handler raises, it does not answer with an empty list. *)
Lemma score_resume_null_keywords_counterexample :
  (forall k, In k required_keys -> is_Some (Stub.null_keywords !! k)) /\
  Stub.null_keywords !! "top_keywords" = Some VNone /\
  call_openai_for_json (Stub.create Stub.null_keywords_text)
    (Stub.loads Stub.null_keywords_text (VDict Stub.null_keywords))
    (Prompt.score_resume Stub.job Stub.resume)
  = Return (VDict Stub.null_keywords) /\
  (forall coerce_str,
     score_resume coerce_str (Stub.create Stub.null_keywords_text)
       (Stub.loads Stub.null_keywords_text (VDict Stub.null_keywords)) Stub.score_request
     = Raise (Uncaught ValidationError)) /\
  ~ exists r,
      score_resume Stub.strict (Stub.create Stub.null_keywords_text)
        (Stub.loads Stub.null_keywords_text (VDict Stub.null_keywords)) Stub.score_request
      = Return r.
Proof.
  split.
  { intros k [<-|[<-|[<-|[<-|[]]]]]; vm_compute; eexists; reflexivity. }
  repeat split; try reflexivity.
  intros [r Hr]. vm_compute in Hr. discriminate Hr.
Qed.

(** C9. There is a mapping with the four required keys, the one whose
    [match_score] is the string ["high"], on which [float] raises
    [ValueError]: the handler has no [try] around the coercion, so the
    exception leaves it as it is, and it is not an [HTTPException]. *)
Theorem score_resume_coercion_is_partial :
  exists d : gmap string value,
    (forall k, In k required_keys -> is_Some (d !! k)) /\
    d !! "match_score" = Some (VStr "high") /\
    PyFloat.float (VStr "high") = Raise (Uncaught ValueError) /\
    (forall coerce_str, score_resume_data coerce_str (VDict d) = Raise (Uncaught ValueError)) /\
    score_resume Stub.strict (Stub.create Stub.high_score_text)
      (Stub.loads Stub.high_score_text (VDict d)) Stub.score_request
    = Raise (Uncaught ValueError) /\
    is_http_exception (Uncaught ValueError) = false.
Proof.
  exists Stub.high_score. split.
  { intros k [<-|[<-|[<-|[<-|[]]]]]; vm_compute; eexists; reflexivity. }
  repeat split; try reflexivity.
Qed.

(** ** The gateway *)

(** The gateway hands on whatever [json.loads] returned. *)
Lemma call_openai_for_json_returns responses_create json_loads prompt response data :
  responses_create "gpt-4.1-mini" prompt = Provider.Ok response ->
  json_loads (text_output response) = Provider.Ok data ->
  call_openai_for_json responses_create json_loads prompt = Return data.
Proof.
  intros Hc Hl. unfold call_openai_for_json. rewrite Hc.
  cbn [mbind Provider.outcome_bind]. rewrite Hl. reflexivity.
Qed.

(** Every call ends in one of four ways: the value [json.loads] built,
    the invalid-JSON error, the gateway error with the message of the
    exception that was caught, or an exception that is no [Exception],
    which no clause catches. *)
Lemma call_openai_for_json_outcomes responses_create json_loads prompt :
  (exists response data,
     responses_create "gpt-4.1-mini" prompt = Provider.Ok response /\
     json_loads (text_output response) = Provider.Ok data /\
     call_openai_for_json responses_create json_loads prompt = Return data) \/
  call_openai_for_json responses_create json_loads prompt
  = Raise (HTTPException 500 "OpenAI did not return valid JSON. Check the prompt or response.") \/
  (exists msg,
     call_openai_for_json responses_create json_loads prompt
     = Raise (HTTPException 500 ("Error while calling OpenAI: " +:+ msg))) \/
  (exists name,
     call_openai_for_json responses_create json_loads prompt
     = Raise (Uncaught (NotException name))).
Proof.
  unfold call_openai_for_json.
  destruct (responses_create "gpt-4.1-mini" prompt) as [response|e|name] eqn:Hc;
    cbn [mbind Provider.outcome_bind].
  - destruct (json_loads (text_output response)) as [data|e|name] eqn:Hl.
    + left. exists response, data. auto.
    + right. unfold on_exception. destruct (Provider.is_JSONDecodeError e);
        [left; reflexivity | right; left; eexists; reflexivity].
    + right. right. right. eexists. reflexivity.
  - right. unfold on_exception. destruct (Provider.is_JSONDecodeError e);
      [left; reflexivity | right; left; eexists; reflexivity].
  - right. right. right. eexists. reflexivity.
Qed.

(** C3, as amended. When [json.loads] raises [JSONDecodeError] on the text
    taken from the provider's response, [call_openai_for_json] raises
    [HTTPException] with status 500 and the fixed detail, and so does
    either handler that sent the prompt: no result is returned. *)
Theorem invalid_json_raises_format_error
    coerce_str responses_create json_loads prompt response e :
  responses_create "gpt-4.1-mini" prompt = Provider.Ok response ->
  json_loads (text_output response) = Provider.Raised e ->
  Provider.is_JSONDecodeError e = true ->
  call_openai_for_json responses_create json_loads prompt
  = Raise (HTTPException 500 "OpenAI did not return valid JSON. Check the prompt or response.") /\
  (forall payload,
     Prompt.score_resume (ScoreResumeRequest.job payload) (ScoreResumeRequest.resume payload)
     = prompt ->
     score_resume coerce_str responses_create json_loads payload
     = Raise (HTTPException 500 "OpenAI did not return valid JSON. Check the prompt or response.")) /\
  (forall payload,
     cover_letter_prompt payload = prompt ->
     generate_cover_letter coerce_str responses_create json_loads payload
     = Raise (HTTPException 500 "OpenAI did not return valid JSON. Check the prompt or response.")).
Proof.
  intros Hc Hl He.
  assert (Hcall : call_openai_for_json responses_create json_loads prompt
                  = Raise (HTTPException 500 "OpenAI did not return valid JSON. Check the prompt or response.")).
  { unfold call_openai_for_json. rewrite Hc. cbn [mbind Provider.outcome_bind].
    rewrite Hl. unfold on_exception. rewrite He. reflexivity. }
  split; [exact Hcall|]. split; intros payload <-.
  - unfold score_resume. cbn zeta. rewrite Hcall. reflexivity.
  - unfold generate_cover_letter. rewrite Hcall. reflexivity.
Qed.

Lemma invalid_json_raises_format_error_witness :
  call_openai_for_json (Stub.create "Sure, here is the JSON:")
    (Stub.loads Stub.scenario_text (VDict Stub.scenario))
    (Prompt.score_resume Stub.job Stub.resume)
  = Raise (HTTPException 500 "OpenAI did not return valid JSON. Check the prompt or response.") /\
  (forall payload,
     Prompt.score_resume (ScoreResumeRequest.job payload) (ScoreResumeRequest.resume payload)
     = Prompt.score_resume Stub.job Stub.resume ->
     score_resume Stub.strict (Stub.create "Sure, here is the JSON:")
       (Stub.loads Stub.scenario_text (VDict Stub.scenario)) payload
     = Raise (HTTPException 500 "OpenAI did not return valid JSON. Check the prompt or response.")) /\
  (forall payload,
     cover_letter_prompt payload = Prompt.score_resume Stub.job Stub.resume ->
     generate_cover_letter Stub.strict (Stub.create "Sure, here is the JSON:")
       (Stub.loads Stub.scenario_text (VDict Stub.scenario)) payload
     = Raise (HTTPException 500 "OpenAI did not return valid JSON. Check the prompt or response.")).
Proof.
  apply (invalid_json_raises_format_error Stub.strict
           (Stub.create "Sure, here is the JSON:")
           (Stub.loads Stub.scenario_text (VDict Stub.scenario))
           (Prompt.score_resume Stub.job Stub.resume)
           (Provider.Response (Some "Sure, here is the JSON:") "")
           (Provider.Exception true "Expecting value"));
    reflexivity.
Defined.

(** The recogniser on the stub texts. *)
Example json_valid_examples :
  Json.valid Stub.scenario_text = true /\
  Json.valid Stub.letter_text = true /\
  Json.valid "[]" = true /\
  Json.valid "5" = true /\
  Json.valid "Sure, here is the JSON:" = false /\
  Json.valid "NaN" = false /\
  Json.valid "-Infinity" = false /\
  Json.valid "" = false.
Proof. repeat split; vm_compute; reflexivity. Qed.

(** C3, counterexample. The text of the stub answer with the further
    member ["confidence": NaN] is not JSON, for [NaN] is no JSON value;
    [json.loads] accepts the constant and builds the object with a float
    nan.  The gateway returns that object, it does not raise the
    invalid-JSON error, and [score_resume] returns a result. *)
Lemma invalid_json_nan_counterexample :
  Json.valid Stub.nan_text = false /\
  call_openai_for_json (Stub.create Stub.nan_text)
    (Stub.loads Stub.nan_text (VDict Stub.nan_answer))
    (Prompt.score_resume Stub.job Stub.resume)
  = Return (VDict Stub.nan_answer) /\
  call_openai_for_json (Stub.create Stub.nan_text)
    (Stub.loads Stub.nan_text (VDict Stub.nan_answer))
    (Prompt.score_resume Stub.job Stub.resume)
  <> Raise (HTTPException 500 "OpenAI did not return valid JSON. Check the prompt or response.") /\
  (forall coerce_str,
     score_resume coerce_str (Stub.create Stub.nan_text)
       (Stub.loads Stub.nan_text (VDict Stub.nan_answer)) Stub.score_request
     = Return (ScoreResumeResponse.mk 83 ["Python"; "SQL"] ["SQL"] "Add SQL examples.")).
Proof.
  split; [vm_compute; reflexivity|].
  split; [reflexivity|].
  split; [intros H; discriminate H|].
  intros coerce_str. reflexivity.
Qed.

(** C4, the failing input. The provider's text is [[]], which [json.loads]
    turns into the empty list: [call_openai_for_json] returns that list,
    although its docstring and annotation promise a [dict]; on the number
    [5] the handlers then raise [TypeError] at [key in data]. *)
Theorem call_openai_for_json_returns_a_list :
  call_openai_for_json (Stub.create "[]") (Stub.loads "[]" (VList []))
    (Prompt.score_resume Stub.job Stub.resume)
  = Return (VList []) /\
  (forall d, VList [] <> VDict d) /\
  score_resume Stub.strict (Stub.create "5") (Stub.loads "5" (VInt 5)) Stub.score_request
  = Raise (Uncaught TypeError) /\
  generate_cover_letter Stub.strict (Stub.create "5") (Stub.loads "5" (VInt 5))
    Stub.letter_request
  = Raise (Uncaught TypeError).
Proof. repeat split; try reflexivity. intros d H. discriminate H. Qed.

(** ** The cover-letter handler *)

Lemma generate_cover_letter_unfold coerce_str responses_create json_loads payload data :
  call_openai_for_json responses_create json_loads (cover_letter_prompt payload)
  = Return data ->
  generate_cover_letter coerce_str responses_create json_loads payload
  = generate_cover_letter_data coerce_str data.
Proof. intros H. unfold generate_cover_letter. rewrite H. reflexivity. Qed.

Lemma generate_cover_letter_data_absent coerce_str (d : gmap string value) :
  d !! "cover_letter_text" = None ->
  generate_cover_letter_data coerce_str (VDict d)
  = Raise (HTTPException 500 "Missing 'cover_letter_text' in OpenAI response").
Proof.
  intros H. unfold generate_cover_letter_data, PyOps.contains.
  cbn [mbind result_bind]. rewrite bool_decide_eq_false_2; [reflexivity|].
  rewrite H. intros [v Hv]. discriminate.
Qed.

Lemma generate_cover_letter_data_present coerce_str (d : gmap string value) v :
  d !! "cover_letter_text" = Some v ->
  generate_cover_letter_data coerce_str (VDict d)
  = GenerateCLResponse.new coerce_str v (default VNone (d !! "summary")).
Proof.
  intros H. unfold generate_cover_letter_data, PyOps.contains.
  cbn [mbind result_bind]. rewrite bool_decide_eq_true_2 by (rewrite H; eexists; reflexivity).
  unfold PyOps.get. rewrite H. reflexivity.
Qed.

(** C8. On a mapping returned by the gateway, [generate_cover_letter]
    raises an [HTTPException] exactly when the key [cover_letter_text] is
    absent, and that exception has status 500 and the detail
    ["Missing 'cover_letter_text' in OpenAI response"].  When the key is
    present and [summary] is absent or [null], every result the handler
    returns has no summary, and it does return one, with the text
    unchanged, when the value of [cover_letter_text] is a string. *)
Theorem generate_cover_letter_contract
    coerce_str responses_create json_loads payload (d : gmap string value) :
  call_openai_for_json responses_create json_loads (cover_letter_prompt payload)
  = Return (VDict d) ->
  (d !! "cover_letter_text" = None ->
   generate_cover_letter coerce_str responses_create json_loads payload
   = Raise (HTTPException 500 "Missing 'cover_letter_text' in OpenAI response")) /\
  (forall status detail,
     generate_cover_letter coerce_str responses_create json_loads payload
     = Raise (HTTPException status detail) ->
     d !! "cover_letter_text" = None) /\
  (forall r,
     is_Some (d !! "cover_letter_text") ->
     d !! "summary" = None \/ d !! "summary" = Some VNone ->
     generate_cover_letter coerce_str responses_create json_loads payload = Return r ->
     GenerateCLResponse.summary r = None) /\
  (forall s,
     d !! "cover_letter_text" = Some (VStr s) ->
     d !! "summary" = None \/ d !! "summary" = Some VNone ->
     generate_cover_letter coerce_str responses_create json_loads payload
     = Return (GenerateCLResponse.mk s None)).
Proof.
  intros Hcall. rewrite (generate_cover_letter_unfold _ _ _ _ _ Hcall).
  assert (Hsum : forall v,
            d !! "summary" = None \/ d !! "summary" = Some VNone ->
            GenerateCLResponse.new coerce_str v (default VNone (d !! "summary"))
            = match validate_str coerce_str v with
              | Some c => Return (GenerateCLResponse.mk c None)
              | None => Raise (Uncaught ValidationError)
              end).
  { intros v [-> | ->]; unfold GenerateCLResponse.new; cbn [default validate_optional_str];
      destruct (validate_str coerce_str v); reflexivity. }
  split; [apply generate_cover_letter_data_absent|].
  split; [|split].
  - intros status detail H.
    destruct (d !! "cover_letter_text") as [v|] eqn:Hv; [|reflexivity].
    rewrite (generate_cover_letter_data_present _ _ _ Hv) in H.
    unfold GenerateCLResponse.new in H.
    destruct (validate_str coerce_str v);
      [destruct (validate_optional_str coerce_str _)|]; discriminate H.
  - intros r [v Hv] Hs H.
    rewrite (generate_cover_letter_data_present _ _ _ Hv), (Hsum v Hs) in H.
    destruct (validate_str coerce_str v); [|discriminate H].
    injection H as <-. reflexivity.
  - intros s Hv Hs.
    rewrite (generate_cover_letter_data_present _ _ _ Hv), (Hsum _ Hs). reflexivity.
Qed.

Lemma generate_cover_letter_contract_witness :
  (Stub.letter !! "cover_letter_text" = None ->
   generate_cover_letter Stub.strict (Stub.create Stub.letter_text)
     (Stub.loads Stub.letter_text (VDict Stub.letter)) Stub.letter_request
   = Raise (HTTPException 500 "Missing 'cover_letter_text' in OpenAI response")) /\
  (forall status detail,
     generate_cover_letter Stub.strict (Stub.create Stub.letter_text)
       (Stub.loads Stub.letter_text (VDict Stub.letter)) Stub.letter_request
     = Raise (HTTPException status detail) ->
     Stub.letter !! "cover_letter_text" = None) /\
  (forall r,
     is_Some (Stub.letter !! "cover_letter_text") ->
     Stub.letter !! "summary" = None \/ Stub.letter !! "summary" = Some VNone ->
     generate_cover_letter Stub.strict (Stub.create Stub.letter_text)
       (Stub.loads Stub.letter_text (VDict Stub.letter)) Stub.letter_request
     = Return r ->
     GenerateCLResponse.summary r = None) /\
  (forall s,
     Stub.letter !! "cover_letter_text" = Some (VStr s) ->
     Stub.letter !! "summary" = None \/ Stub.letter !! "summary" = Some VNone ->
     generate_cover_letter Stub.strict (Stub.create Stub.letter_text)
       (Stub.loads Stub.letter_text (VDict Stub.letter)) Stub.letter_request
     = Return (GenerateCLResponse.mk s None)).
Proof.
  apply (generate_cover_letter_contract Stub.strict
           (Stub.create Stub.letter_text)
           (Stub.loads Stub.letter_text (VDict Stub.letter))
           Stub.letter_request Stub.letter).
  reflexivity.
Defined.

(** The stub answer is returned with its text and no summary. *)
Example generate_cover_letter_stub :
  generate_cover_letter Stub.strict (Stub.create Stub.letter_text)
    (Stub.loads Stub.letter_text (VDict Stub.letter)) Stub.letter_request
  = Return (GenerateCLResponse.mk "Dear Acme team" None).
Proof. reflexivity. Qed.

(** ** The cover-letter prompt *)

(** C5. A cover-letter request without [extras] is rendered with the
    defaults of [ExtrasInfo]: the prompt is the template with the tone line
    ["- Tone: professional but conversational"], the length line
    ["- Length: 3 paragraphs"] and an empty focus clause, so that the third
    guideline line is ["- "]; this text, character for character, is what
    the handler sends. *)
Theorem cover_letter_prompt_without_extras (job : JobInfo.t) (resume : ResumeInfo.t) :
  let payload := GenerateCLRequest.validate (GenerateCLRequest.Body job resume Omitted) in
  let nl := String "010" "" in
  let dq := String "034" "" in
  let rendered :=
    nl +:+ "You are a job application assistant that writes tailored cover letters." +:+ nl
    +:+ nl +:+ "Job description:" +:+ nl
    +:+ JobInfo.job_description job +:+ nl
    +:+ nl +:+ "Company: " +:+ JobInfo.company job +:+ nl
    +:+ "Role title: " +:+ JobInfo.role_title job +:+ nl
    +:+ "Location: " +:+ PyOps.str_or (JobInfo.location job) "N/A" +:+ nl
    +:+ nl +:+ "Candidate resume:" +:+ nl
    +:+ ResumeInfo.text resume +:+ nl
    +:+ nl +:+ "Write a cover letter with the following guidelines:" +:+ nl
    +:+ "- Tone: professional but conversational" +:+ nl
    +:+ "- Length: 3 paragraphs" +:+ nl
    +:+ "- " +:+ nl
    +:+ nl +:+ "The cover letter should highlight the candidate's most relevant experience and skills for this specific role and company. It should sound natural and professional." +:+ nl
    +:+ nl +:+ "Respond in valid JSON only, with this structure:" +:+ nl
    +:+ nl +:+ "{" +:+ nl
    +:+ "  " +:+ dq +:+ "cover_letter_text" +:+ dq +:+ ": " +:+ dq
        +:+ "full cover letter text here" +:+ dq +:+ "," +:+ nl
    +:+ "  " +:+ dq +:+ "summary" +:+ dq +:+ ": " +:+ dq
        +:+ "one sentence summary of why this candidate is a strong fit" +:+ dq +:+ nl
    +:+ "}" +:+ nl in
  extras_or_default payload
  = ExtrasInfo.new (Some "professional but conversational") (Some "3 paragraphs") None /\
  focus_points_text (extras_or_default payload) = "" /\
  cover_letter_prompt payload = rendered /\
  (forall coerce_str responses_create json_loads,
     generate_cover_letter coerce_str responses_create json_loads payload
     = (data ← call_openai_for_json responses_create json_loads rendered;
        generate_cover_letter_data coerce_str data)).
Proof. cbn zeta. repeat split. Qed.

(** C6. The focus clause of a cover-letter request is
    ["Focus on these points: "] followed by the focus points joined with
    [", "], in their order, when [extras.focus_points] is a list that is
    not empty (for [[a, b, c]]: ["Focus on these points: a, b, c"]); it is
    the empty string when the list is empty, when [focus_points] is [null]
    or left out, and when [extras] is [null] or left out. *)
Theorem focus_clause_of_request
    (job : JobInfo.t) (resume : ResumeInfo.t) (tone length : field string) :
  let clause := fun extras : field ExtrasInfo.body =>
    focus_points_text
      (extras_or_default
         (GenerateCLRequest.validate (GenerateCLRequest.Body job resume extras))) in
  (forall p ps,
     clause (Given (ExtrasInfo.Body tone length (Given (p :: ps))))
     = "Focus on these points: " +:+ String.concat ", " (p :: ps)) /\
  (forall a b c,
     clause (Given (ExtrasInfo.Body tone length (Given [a; b; c])))
     = "Focus on these points: " +:+ a +:+ ", " +:+ b +:+ ", " +:+ c) /\
  clause (Given (ExtrasInfo.Body tone length (Given []))) = "" /\
  clause (Given (ExtrasInfo.Body tone length Null)) = "" /\
  clause (Given (ExtrasInfo.Body tone length Omitted)) = "" /\
  clause Null = "" /\
  clause Omitted = "".
Proof. cbn zeta. repeat split. Qed.

(** The clause takes the third guideline line of the prompt. *)
Lemma cover_letter_prompt_guidelines (payload : GenerateCLRequest.t) :
  cover_letter_prompt payload
  = Prompt.lines
      (Prompt.cover_letter_head (GenerateCLRequest.job payload) (GenerateCLRequest.resume payload)
       ++ [ "- Tone: " +:+ PyOps.format_optional (ExtrasInfo.tone (extras_or_default payload));
            "- Length: " +:+ PyOps.format_optional (ExtrasInfo.length (extras_or_default payload));
            "- " +:+ focus_points_text (extras_or_default payload) ]
       ++ Prompt.cover_letter_tail).
Proof. reflexivity. Qed.

(** C10. When [extras] is present, each of [tone] and [length] is
    rendered by itself: the default when the field is left out, the text
    when one is given, and [None] when the field is [null].  So a [null]
    tone gives the line ["- Tone: None"], not the default, and a [null]
    length gives ["- Length: None"]; the prompt is the template with these
    lines, character for character. *)
Theorem null_tone_is_rendered_as_None
    (job : JobInfo.t) (resume : ResumeInfo.t)
    (tone length : field string) (focus_points : field (list string)) :
  let nl := String "010" "" in
  let dq := String "034" "" in
  let tone_line :=
    match tone with
    | Omitted => "- Tone: professional but conversational"
    | Null => "- Tone: None"
    | Given s => "- Tone: " +:+ s
    end in
  let length_line :=
    match length with
    | Omitted => "- Length: 3 paragraphs"
    | Null => "- Length: None"
    | Given s => "- Length: " +:+ s
    end in
  let focus_line :=
    match focus_points with
    | Given (p :: ps) => "- Focus on these points: " +:+ String.concat ", " (p :: ps)
    | Given [] | Null | Omitted => "- "
    end in
  cover_letter_prompt
    (GenerateCLRequest.validate
       (GenerateCLRequest.Body job resume
          (Given (ExtrasInfo.Body tone length focus_points))))
  = (
    nl +:+ "You are a job application assistant that writes tailored cover letters." +:+ nl
    +:+ nl +:+ "Job description:" +:+ nl
    +:+ JobInfo.job_description job +:+ nl
    +:+ nl +:+ "Company: " +:+ JobInfo.company job +:+ nl
    +:+ "Role title: " +:+ JobInfo.role_title job +:+ nl
    +:+ "Location: " +:+ PyOps.str_or (JobInfo.location job) "N/A" +:+ nl
    +:+ nl +:+ "Candidate resume:" +:+ nl
    +:+ ResumeInfo.text resume +:+ nl
    +:+ nl +:+ "Write a cover letter with the following guidelines:" +:+ nl
    +:+ tone_line +:+ nl
    +:+ length_line +:+ nl
    +:+ focus_line +:+ nl
    +:+ nl +:+ "The cover letter should highlight the candidate's most relevant experience and skills for this specific role and company. It should sound natural and professional." +:+ nl
    +:+ nl +:+ "Respond in valid JSON only, with this structure:" +:+ nl
    +:+ nl +:+ "{" +:+ nl
    +:+ "  " +:+ dq +:+ "cover_letter_text" +:+ dq +:+ ": " +:+ dq
        +:+ "full cover letter text here" +:+ dq +:+ "," +:+ nl
    +:+ "  " +:+ dq +:+ "summary" +:+ dq +:+ ": " +:+ dq
        +:+ "one sentence summary of why this candidate is a strong fit" +:+ dq +:+ nl
    +:+ "}" +:+ nl) /\
  "- Tone: None" <> "- Tone: professional but conversational" /\
  "- Length: None" <> "- Length: 3 paragraphs".
Proof.
  cbn zeta. split; [|split; discriminate].
  destruct tone, length, focus_points as [| |[|p ps]]; reflexivity.
Qed.

(** The prompt of a request with a [null] tone and length and three focus
    points, line by line. *)
Example null_tone_prompt :
  cover_letter_prompt (GenerateCLRequest.validate Stub.null_tone_body)
  = Prompt.lines
      [ "";
        "You are a job application assistant that writes tailored cover letters.";
        "";
        "Job description:";
        "Python, SQL";
        "";
        "Company: Acme";
        "Role title: Engineer";
        "Location: N/A";
        "";
        "Candidate resume:";
        "5 years Python";
        "";
        "Write a cover letter with the following guidelines:";
        "- Tone: None";
        "- Length: None";
        "- Focus on these points: Python, SQL, teamwork";
        "";
        "The cover letter should highlight the candidate's most relevant experience and skills for this specific role and company. It should sound natural and professional.";
        "";
        "Respond in valid JSON only, with this structure:";
        "";
        "{";
        "  " +:+ Prompt.q "cover_letter_text" +:+ ": " +:+ Prompt.q "full cover letter text here" +:+ ",";
        "  " +:+ Prompt.q "summary" +:+ ": "
             +:+ Prompt.q "one sentence summary of why this candidate is a strong fit";
        "}";
        "" ].
Proof. reflexivity. Qed.

(** ** Further facts *)

(** Handed anything but a [dict], neither handler returns a result. *)
Lemma score_resume_data_needs_dict coerce_str (data : value) :
  (forall d, data <> VDict d) ->
  returns (score_resume_data coerce_str data) = false.
Proof.
  intros Hnd. unfold score_resume_data.
  destruct data as [| b | n | f | s | l | d]; try reflexivity.
  - destruct (check_keys required_keys (VStr s)) as [[]|e]; reflexivity.
  - destruct (check_keys required_keys (VList l)) as [[]|e]; reflexivity.
  - destruct (Hnd d). reflexivity.
Qed.

Lemma generate_cover_letter_data_needs_dict coerce_str (data : value) :
  (forall d, data <> VDict d) ->
  returns (generate_cover_letter_data coerce_str data) = false.
Proof.
  intros Hnd. unfold generate_cover_letter_data.
  destruct data as [| b | n | f | s | l | d]; try reflexivity.
  - cbn [PyOps.contains mbind result_bind].
    destruct (PyOps.str_contains "cover_letter_text" s); reflexivity.
  - cbn [PyOps.contains mbind result_bind].
    destruct (existsb _ l); reflexivity.
  - destruct (Hnd d). reflexivity.
Qed.

(** An integer score from -1000 to 1000 comes back as it is: nothing
    brings it into 0..100. *)
Lemma round_float_small_int (n : Z) :
  -1000 <= n <= 1000 ->
  (x ← PyFloat.float (VInt n); PyFloat.round x) = Return n.
Proof.
  intros Hn.
  assert (Hall : forallb
            (fun k : nat =>
               let n := Z.of_nat k - 1000 in
               match x ← PyFloat.float (VInt n); PyFloat.round x with
               | Return m => m =? n
               | Raise _ => false
               end) (seq 0 2001) = true) by (vm_compute; reflexivity).
  rewrite forallb_forall in Hall.
  specialize (Hall (Z.to_nat (n + 1000))).
  replace (Z.of_nat (Z.to_nat (n + 1000)) - 1000) with n in Hall by lia.
  cbn zeta in Hall.
  destruct (x ← PyFloat.float (VInt n); PyFloat.round x) as [m|e].
  - f_equal. apply Z.eqb_eq. apply Hall. apply in_seq. lia.
  - discriminate Hall. apply in_seq. lia.
Qed.

(** ** The gateway: the remaining paths *)

(** X1. An instance of [Exception] that is not a [JSONDecodeError],
    raised by the provider call or by [json.loads], leaves the gateway as
    [HTTPException] with status 500 and detail
    ["Error while calling OpenAI: "] followed by the exception's text; both
    handlers hand it on unchanged. *)
Theorem gateway_error_carries_message
    coerce_str responses_create json_loads prompt e :
  responses_create "gpt-4.1-mini" prompt = Provider.Raised e \/
  (exists response,
     responses_create "gpt-4.1-mini" prompt = Provider.Ok response /\
     json_loads (text_output response) = Provider.Raised e) ->
  Provider.is_JSONDecodeError e = false ->
  call_openai_for_json responses_create json_loads prompt
  = Raise (HTTPException 500 ("Error while calling OpenAI: " +:+ Provider.message e)) /\
  (forall payload,
     Prompt.score_resume (ScoreResumeRequest.job payload) (ScoreResumeRequest.resume payload)
     = prompt ->
     score_resume coerce_str responses_create json_loads payload
     = Raise (HTTPException 500 ("Error while calling OpenAI: " +:+ Provider.message e))) /\
  (forall payload,
     cover_letter_prompt payload = prompt ->
     generate_cover_letter coerce_str responses_create json_loads payload
     = Raise (HTTPException 500 ("Error while calling OpenAI: " +:+ Provider.message e))).
Proof.
  intros Hraise He.
  assert (Hcall : call_openai_for_json responses_create json_loads prompt
                  = Raise (HTTPException 500
                             ("Error while calling OpenAI: " +:+ Provider.message e))).
  { unfold call_openai_for_json.
    destruct Hraise as [Hc | (response & Hc & Hl)]; rewrite Hc;
      cbn [mbind Provider.outcome_bind]; [|rewrite Hl];
      unfold on_exception; rewrite He; reflexivity. }
  split; [exact Hcall|]. split; intros payload <-.
  - unfold score_resume. cbn zeta. rewrite Hcall. reflexivity.
  - unfold generate_cover_letter. rewrite Hcall. reflexivity.
Qed.

Lemma gateway_error_carries_message_witness :
  call_openai_for_json (Stub.unreachable "Connection error.")
    (Stub.loads Stub.scenario_text (VDict Stub.scenario))
    (Prompt.score_resume Stub.job Stub.resume)
  = Raise (HTTPException 500 "Error while calling OpenAI: Connection error.") /\
  (forall payload,
     Prompt.score_resume (ScoreResumeRequest.job payload) (ScoreResumeRequest.resume payload)
     = Prompt.score_resume Stub.job Stub.resume ->
     score_resume Stub.strict (Stub.unreachable "Connection error.")
       (Stub.loads Stub.scenario_text (VDict Stub.scenario)) payload
     = Raise (HTTPException 500 "Error while calling OpenAI: Connection error.")) /\
  (forall payload,
     cover_letter_prompt payload = Prompt.score_resume Stub.job Stub.resume ->
     generate_cover_letter Stub.strict (Stub.unreachable "Connection error.")
       (Stub.loads Stub.scenario_text (VDict Stub.scenario)) payload
     = Raise (HTTPException 500 "Error while calling OpenAI: Connection error.")).
Proof.
  apply (gateway_error_carries_message Stub.strict
           (Stub.unreachable "Connection error.")
           (Stub.loads Stub.scenario_text (VDict Stub.scenario))
           (Prompt.score_resume Stub.job Stub.resume)
           (Provider.Exception false "Connection error.")).
  - left. reflexivity.
  - reflexivity.
Defined.

(** X2. A [JSONDecodeError] raised by the provider call itself, before any
    text was taken from a response, is reported with the invalid-JSON
    detail too: the first [except] clause guards the whole [try], and
    [json.loads] is never consulted. *)
Theorem provider_decode_error_reported_as_invalid_json
    responses_create json_loads json_loads' prompt e :
  responses_create "gpt-4.1-mini" prompt = Provider.Raised e ->
  Provider.is_JSONDecodeError e = true ->
  call_openai_for_json responses_create json_loads prompt
  = Raise (HTTPException 500 "OpenAI did not return valid JSON. Check the prompt or response.") /\
  call_openai_for_json responses_create json_loads' prompt
  = call_openai_for_json responses_create json_loads prompt.
Proof.
  intros Hc He. unfold call_openai_for_json. rewrite Hc.
  cbn [mbind Provider.outcome_bind]. unfold on_exception. rewrite He.
  split; reflexivity.
Qed.

Lemma provider_decode_error_reported_as_invalid_json_witness :
  call_openai_for_json
    (fun _ _ => Provider.Raised (Provider.Exception true "Expecting value"))
    (Stub.loads Stub.scenario_text (VDict Stub.scenario)) "prompt"
  = Raise (HTTPException 500 "OpenAI did not return valid JSON. Check the prompt or response.") /\
  call_openai_for_json
    (fun _ _ => Provider.Raised (Provider.Exception true "Expecting value"))
    (Stub.loads "[]" (VList [])) "prompt"
  = call_openai_for_json
      (fun _ _ => Provider.Raised (Provider.Exception true "Expecting value"))
      (Stub.loads Stub.scenario_text (VDict Stub.scenario)) "prompt".
Proof.
  apply (provider_decode_error_reported_as_invalid_json
           (fun _ _ => Provider.Raised (Provider.Exception true "Expecting value"))
           (Stub.loads Stub.scenario_text (VDict Stub.scenario))
           (Stub.loads "[]" (VList [])) "prompt"
           (Provider.Exception true "Expecting value")); reflexivity.
Defined.

(** X3. A response whose text cannot be read is not an error by itself:
    the gateway parses [str(response)] in its place, so the outcome is
    that of a response whose text is [str(response)], and when that string
    happens to be JSON the call succeeds. *)
Theorem unreadable_response_falls_back_to_str
    responses_create responses_create' json_loads prompt (s s' : string) :
  responses_create "gpt-4.1-mini" prompt = Provider.Ok (Provider.Response None s) ->
  responses_create' "gpt-4.1-mini" prompt = Provider.Ok (Provider.Response (Some s) s') ->
  call_openai_for_json responses_create json_loads prompt
  = call_openai_for_json responses_create' json_loads prompt /\
  (forall data,
     json_loads s = Provider.Ok data ->
     call_openai_for_json responses_create json_loads prompt = Return data).
Proof.
  intros Hc Hc'. unfold call_openai_for_json. rewrite Hc, Hc'.
  cbn [mbind Provider.outcome_bind text_output Provider.output_text Provider.as_str].
  split; [reflexivity|]. intros data ->. reflexivity.
Qed.

Lemma unreadable_response_falls_back_to_str_witness :
  call_openai_for_json (Stub.create_without_text "[]") (Stub.loads "[]" (VList [])) "prompt"
  = call_openai_for_json (Stub.create "[]") (Stub.loads "[]" (VList [])) "prompt" /\
  (forall data,
     Stub.loads "[]" (VList []) "[]" = Provider.Ok data ->
     call_openai_for_json (Stub.create_without_text "[]") (Stub.loads "[]" (VList [])) "prompt"
     = Return data).
Proof.
  apply (unreadable_response_falls_back_to_str
           (Stub.create_without_text "[]") (Stub.create "[]")
           (Stub.loads "[]" (VList [])) "prompt" "[]" ""); reflexivity.
Defined.

(** X4. Every [HTTPException] the gateway raises has status 500 and one
    of its two details, and whatever it returns is the value [json.loads]
    built from the text of the response to this prompt under the model
    ["gpt-4.1-mini"].  An exception that is no instance of [Exception]
    ([KeyboardInterrupt], [SystemExit]), raised by the provider call or by
    [json.loads], is caught by neither [except] clause: it leaves the
    gateway as it is, and is not turned into an [HTTPException]. *)
Theorem call_openai_for_json_total_outcomes responses_create json_loads prompt :
  (forall status detail,
     call_openai_for_json responses_create json_loads prompt
     = Raise (HTTPException status detail) ->
     status = 500 /\
     (detail = "OpenAI did not return valid JSON. Check the prompt or response." \/
      exists msg, detail = "Error while calling OpenAI: " +:+ msg)) /\
  (forall data,
     call_openai_for_json responses_create json_loads prompt = Return data ->
     exists response,
       responses_create "gpt-4.1-mini" prompt = Provider.Ok response /\
       json_loads (text_output response) = Provider.Ok data) /\
  (forall name,
     responses_create "gpt-4.1-mini" prompt = Provider.Interrupted name \/
     (exists response,
        responses_create "gpt-4.1-mini" prompt = Provider.Ok response /\
        json_loads (text_output response) = Provider.Interrupted name) ->
     call_openai_for_json responses_create json_loads prompt
     = Raise (Uncaught (NotException name))).
Proof.
  unfold call_openai_for_json.
  destruct (responses_create "gpt-4.1-mini" prompt) as [response|e0|name0] eqn:Hc;
    cbn [mbind Provider.outcome_bind].
  - destruct (json_loads (text_output response)) as [data0|e0|name0] eqn:Hl;
      (split; [|split]).
    + intros status detail H. discriminate H.
    + intros data H. injection H as <-. exists response. split; [reflexivity|exact Hl].
    + intros name [H | (r & Hr & H)]; [discriminate H|].
      injection Hr as <-. rewrite Hl in H. discriminate H.
    + intros status detail H. unfold on_exception in H.
      destruct (Provider.is_JSONDecodeError e0); injection H as <- <-;
        (split; [reflexivity|]); [left | right; eexists]; reflexivity.
    + intros data H. discriminate H.
    + intros name [H | (r & Hr & H)]; [discriminate H|].
      injection Hr as <-. rewrite Hl in H. discriminate H.
    + intros status detail H. discriminate H.
    + intros data H. discriminate H.
    + intros name [H | (r & Hr & H)]; [discriminate H|].
      injection Hr as <-. rewrite Hl in H. injection H as <-. reflexivity.
  - split; [|split].
    + intros status detail H. unfold on_exception in H.
      destruct (Provider.is_JSONDecodeError e0); injection H as <- <-;
        (split; [reflexivity|]); [left | right; eexists]; reflexivity.
    + intros data H. discriminate H.
    + intros name [H | (r & Hr & _)]; [discriminate H | discriminate Hr].
  - split; [|split].
    + intros status detail H. discriminate H.
    + intros data H. discriminate H.
    + intros name [H | (r & Hr & _)]; [injection H as <-; reflexivity | discriminate Hr].
Qed.

(** ** What the handlers can raise *)

Lemma check_keys_raises (keys : list string) (data : value) e :
  check_keys keys data = Raise e ->
  (exists key, In key keys /\
     e = HTTPException 500 ("Missing key in OpenAI response: " +:+ key)) \/
  e = Uncaught TypeError.
Proof.
  induction keys as [|key rest IH]; intros H; [discriminate H|].
  cbn [check_keys] in H.
  destruct (PyOps.contains key data) as [[|]|e0] eqn:Hc; cbn [mbind result_bind] in H.
  - destruct (IH H) as [(k & Hk & ->) | ->]; [left; exists k; split; [right|]; trivial | right; trivial].
  - injection H as <-. left. exists key. split; [left|]; reflexivity.
  - injection H as <-. right.
    destruct data; cbn [PyOps.contains] in Hc; try discriminate Hc;
      injection Hc as <-; reflexivity.
Qed.

Lemma check_keys_dict_return (keys : list string) (d : gmap string value) :
  check_keys keys (VDict d) = Return tt ->
  forall k, In k keys -> is_Some (d !! k).
Proof.
  induction keys as [|key rest IH]; intros H k Hk; [destruct Hk|].
  cbn [check_keys PyOps.contains mbind result_bind] in H.
  destruct (bool_decide (is_Some (d !! key))) eqn:Hb; [|discriminate H].
  destruct Hk as [<-|Hk]; [eapply bool_decide_eq_true_1, Hb | apply IH; assumption].
Qed.

Lemma float_raises (v : value) e :
  PyFloat.float v = Raise e ->
  e = Uncaught TypeError \/ e = Uncaught ValueError \/ e = Uncaught OverflowError.
Proof.
  destruct v as [| b | n | f | s | l | d]; cbn [PyFloat.float];
    unfold PyFloat.of_int, PyFloat.of_str; intros H.
  - injection H as <-. auto.
  - destruct (binary_normalize _ _ _ _ _); try discriminate H. injection H as <-. auto.
  - destruct (binary_normalize _ _ _ _ _); try discriminate H. injection H as <-. auto.
  - discriminate H.
  - destruct (PyFloat.of_chars _); [discriminate H|]. injection H as <-. auto.
  - injection H as <-. auto.
  - injection H as <-. auto.
Qed.

Lemma round_raises (x : spec_float) e :
  PyFloat.round x = Raise e ->
  e = Uncaught ValueError \/ e = Uncaught OverflowError.
Proof.
  destruct x; cbn [PyFloat.round]; intros H; try discriminate H;
    injection H as <-; auto.
Qed.

Lemma score_resume_data_raises coerce_str (data : value) e :
  score_resume_data coerce_str data = Raise e ->
  (exists key, In key required_keys /\
     e = HTTPException 500 ("Missing key in OpenAI response: " +:+ key)) \/
  e = Uncaught TypeError \/ e = Uncaught ValueError \/
  e = Uncaught OverflowError \/ e = Uncaught ValidationError.
Proof.
  unfold score_resume_data. intros H.
  destruct (check_keys required_keys data) as [[]|e0] eqn:Hk; cbn [mbind result_bind] in H.
  - destruct data as [| b | n | f | s | l | d];
      try (cbn [PyOps.getitem mbind result_bind] in H; injection H as <-; auto; fail).
    destruct (check_keys_dict_return _ _ Hk "match_score") as [raw Hs]; [simpl; tauto|].
    cbn [PyOps.getitem PyOps.get] in H. rewrite Hs in H. cbn [mbind result_bind] in H.
    destruct (PyFloat.float raw) as [x|e1] eqn:Hx; cbn [mbind result_bind] in H.
    + destruct (PyFloat.round x) as [m|e1] eqn:Hr; cbn [mbind result_bind] in H.
      * unfold ScoreResumeResponse.new in H.
        repeat match type of H with
               | context [match ?o with Some _ => _ | None => _ end] => destruct o
               end;
          try discriminate H; injection H as <-; auto 6.
      * injection H as <-. destruct (round_raises _ _ Hr) as [-> | ->]; auto 6.
    + injection H as <-. destruct (float_raises _ _ Hx) as [-> | [-> | ->]]; auto 6.
  - injection H as <-. destruct (check_keys_raises _ _ _ Hk) as [Hm | ->]; auto.
Qed.

(** X5. Once the gateway has returned a value, whatever [score_resume]
    raises is the [HTTPException] with status 500 that names a required
    key as missing, or one of four exceptions the handler does not catch:
    [TypeError], [ValueError], [OverflowError] and pydantic's
    [ValidationError].  It is never [KeyError] or [AttributeError]: the
    presence check comes before the key is read. *)
Theorem score_resume_raises_only
    coerce_str responses_create json_loads payload data e :
  call_openai_for_json responses_create json_loads
    (Prompt.score_resume (ScoreResumeRequest.job payload) (ScoreResumeRequest.resume payload))
  = Return data ->
  score_resume coerce_str responses_create json_loads payload = Raise e ->
  (exists key, In key required_keys /\
     e = HTTPException 500 ("Missing key in OpenAI response: " +:+ key)) \/
  e = Uncaught TypeError \/ e = Uncaught ValueError \/
  e = Uncaught OverflowError \/ e = Uncaught ValidationError.
Proof.
  intros Hcall H. rewrite (score_resume_unfold _ _ _ _ _ Hcall) in H.
  exact (score_resume_data_raises _ _ _ H).
Qed.

Lemma score_resume_raises_only_witness :
  (exists key, In key required_keys /\
     Uncaught OverflowError
     = HTTPException 500 ("Missing key in OpenAI response: " +:+ key)) \/
  Uncaught OverflowError = Uncaught TypeError \/
  Uncaught OverflowError = Uncaught ValueError \/
  Uncaught OverflowError = Uncaught OverflowError \/
  Uncaught OverflowError = Uncaught ValidationError.
Proof.
  apply (score_resume_raises_only Stub.strict
           (Stub.create Stub.overflow_score_text)
           (Stub.loads Stub.overflow_score_text (VDict Stub.overflow_score))
           Stub.score_request (VDict Stub.overflow_score) (Uncaught OverflowError));
    reflexivity.
Defined.

Lemma generate_cover_letter_data_raises coerce_str (data : value) e :
  generate_cover_letter_data coerce_str data = Raise e ->
  e = HTTPException 500 "Missing 'cover_letter_text' in OpenAI response" \/
  e = Uncaught TypeError \/ e = Uncaught AttributeError \/ e = Uncaught ValidationError.
Proof.
  unfold generate_cover_letter_data. intros H.
  destruct (PyOps.contains "cover_letter_text" data) as [[|]|e0] eqn:Hc;
    cbn [mbind result_bind] in H.
  - destruct data as [| b | n | f | s | l | d];
      try (cbn [PyOps.get mbind result_bind] in H; injection H as <-; auto; fail).
    cbn [PyOps.get mbind result_bind] in H. unfold GenerateCLResponse.new in H.
    destruct (validate_str _ _); [destruct (validate_optional_str _ _)|];
      try discriminate H; injection H as <-; auto.
  - injection H as <-. auto.
  - injection H as <-.
    destruct data; cbn [PyOps.contains] in Hc; try discriminate Hc;
      injection Hc as <-; auto.
Qed.

(** X6. Once the gateway has returned a value, whatever
    [generate_cover_letter] raises is the [HTTPException] with status 500
    and detail ["Missing 'cover_letter_text' in OpenAI response"], or one
    of three exceptions the handler does not catch: [TypeError],
    [AttributeError] and pydantic's [ValidationError]. *)
Theorem generate_cover_letter_raises_only
    coerce_str responses_create json_loads payload data e :
  call_openai_for_json responses_create json_loads (cover_letter_prompt payload)
  = Return data ->
  generate_cover_letter coerce_str responses_create json_loads payload = Raise e ->
  e = HTTPException 500 "Missing 'cover_letter_text' in OpenAI response" \/
  e = Uncaught TypeError \/ e = Uncaught AttributeError \/ e = Uncaught ValidationError.
Proof.
  intros Hcall H. rewrite (generate_cover_letter_unfold _ _ _ _ _ Hcall) in H.
  exact (generate_cover_letter_data_raises _ _ _ H).
Qed.

Lemma generate_cover_letter_raises_only_witness :
  Uncaught ValidationError
  = HTTPException 500 "Missing 'cover_letter_text' in OpenAI response" \/
  Uncaught ValidationError = Uncaught TypeError \/
  Uncaught ValidationError = Uncaught AttributeError \/
  Uncaught ValidationError = Uncaught ValidationError.
Proof.
  apply (generate_cover_letter_raises_only Stub.strict
           (Stub.create Stub.letter_null_text_json)
           (Stub.loads Stub.letter_null_text_json (VDict Stub.letter_null_text))
           Stub.letter_request (VDict Stub.letter_null_text) (Uncaught ValidationError));
    reflexivity.
Defined.

(** ** The score-resume handler: order of the checks, and what it reads *)

(** X7. With the four keys present, an exception raised by [float] or
    [round] on the [match_score] value leaves the handler as it is,
    whatever the other three values are: the coercion comes before the
    response is built. *)
Theorem score_resume_coercion_error_escapes
    coerce_str responses_create json_loads payload (d : gmap string value) raw e :
  call_openai_for_json responses_create json_loads
    (Prompt.score_resume (ScoreResumeRequest.job payload) (ScoreResumeRequest.resume payload))
  = Return (VDict d) ->
  (forall k, In k required_keys -> is_Some (d !! k)) ->
  d !! "match_score" = Some raw ->
  PyFloat.float raw = Raise e \/
  (exists x, PyFloat.float raw = Return x /\ PyFloat.round x = Raise e) ->
  score_resume coerce_str responses_create json_loads payload = Raise e.
Proof.
  intros Hcall Hall Hs He.
  rewrite (score_resume_unfold _ _ _ _ _ Hcall).
  destruct (Hall "top_keywords") as [tk Ht]; [simpl; tauto|].
  destruct (Hall "missing_or_weak_keywords") as [mk Hm]; [simpl; tauto|].
  destruct (Hall "suggested_resume_edits") as [se Hse]; [simpl; tauto|].
  rewrite (score_resume_data_present _ _ _ _ _ _ Hs Ht Hm Hse).
  destruct He as [-> | (x & -> & Hr)]; [reflexivity|].
  cbn [mbind result_bind]. rewrite Hr. reflexivity.
Qed.

Lemma score_resume_coercion_error_escapes_witness :
  score_resume Stub.strict (Stub.create Stub.overflow_score_text)
    (Stub.loads Stub.overflow_score_text (VDict Stub.overflow_score)) Stub.score_request
  = Raise (Uncaught OverflowError).
Proof.
  apply (score_resume_coercion_error_escapes Stub.strict
           (Stub.create Stub.overflow_score_text)
           (Stub.loads Stub.overflow_score_text (VDict Stub.overflow_score))
           Stub.score_request Stub.overflow_score (VStr "1e400") (Uncaught OverflowError)).
  - reflexivity.
  - intros k [<-|[<-|[<-|[<-|[]]]]]; vm_compute; eexists; reflexivity.
  - reflexivity.
  - right. exists (S754_infinity false). split; vm_compute; reflexivity.
Defined.

Lemma check_keys_dict_agree (keys : list string) (d d' : gmap string value) :
  (forall k, In k keys -> d !! k = d' !! k) ->
  check_keys keys (VDict d) = check_keys keys (VDict d').
Proof.
  induction keys as [|key rest IH]; intros Hag; [reflexivity|].
  cbn [check_keys PyOps.contains mbind result_bind].
  rewrite (Hag key) by (left; reflexivity).
  rewrite IH by (intros k Hk; apply Hag; right; exact Hk). reflexivity.
Qed.

(** X8. [score_resume] reads the four required keys and nothing else: two
    mappings that agree on them give the same outcome, so any further key
    in the answer is ignored. *)
Theorem score_resume_ignores_other_keys
    coerce_str responses_create json_loads json_loads' payload
    (d d' : gmap string value) :
  call_openai_for_json responses_create json_loads
    (Prompt.score_resume (ScoreResumeRequest.job payload) (ScoreResumeRequest.resume payload))
  = Return (VDict d) ->
  call_openai_for_json responses_create json_loads'
    (Prompt.score_resume (ScoreResumeRequest.job payload) (ScoreResumeRequest.resume payload))
  = Return (VDict d') ->
  (forall k, In k required_keys -> d !! k = d' !! k) ->
  score_resume coerce_str responses_create json_loads payload
  = score_resume coerce_str responses_create json_loads' payload.
Proof.
  intros Hcall Hcall' Hag.
  rewrite (score_resume_unfold _ _ _ _ _ Hcall), (score_resume_unfold _ _ _ _ _ Hcall').
  unfold score_resume_data. rewrite (check_keys_dict_agree _ d d' Hag).
  unfold PyOps.getitem, PyOps.get.
  rewrite (Hag "match_score"), (Hag "top_keywords"),
    (Hag "missing_or_weak_keywords"), (Hag "suggested_resume_edits")
    by (simpl; tauto).
  reflexivity.
Qed.

Lemma score_resume_ignores_other_keys_witness :
  score_resume Stub.strict (Stub.create Stub.scenario_text)
    (Stub.loads Stub.scenario_text (VDict Stub.scenario)) Stub.score_request
  = score_resume Stub.strict (Stub.create Stub.scenario_text)
      (Stub.loads Stub.scenario_text (VDict Stub.with_notes)) Stub.score_request.
Proof.
  apply (score_resume_ignores_other_keys Stub.strict
           (Stub.create Stub.scenario_text)
           (Stub.loads Stub.scenario_text (VDict Stub.scenario))
           (Stub.loads Stub.scenario_text (VDict Stub.with_notes))
           Stub.score_request Stub.scenario Stub.with_notes).
  - reflexivity.
  - reflexivity.
  - intros k [<-|[<-|[<-|[<-|[]]]]]; vm_compute; reflexivity.
Defined.

(** X9. The score-resume prompt is made of the job description and the
    resume text only: two requests that agree on these two get the same
    outcome from the same provider, so the company, the role title, the
    location, the job URL and the candidate's name are never sent and
    never matter. *)
Theorem score_resume_reads_description_and_text_only
    coerce_str responses_create json_loads (payload payload' : ScoreResumeRequest.t) :
  JobInfo.job_description (ScoreResumeRequest.job payload)
  = JobInfo.job_description (ScoreResumeRequest.job payload') ->
  ResumeInfo.text (ScoreResumeRequest.resume payload)
  = ResumeInfo.text (ScoreResumeRequest.resume payload') ->
  Prompt.score_resume (ScoreResumeRequest.job payload) (ScoreResumeRequest.resume payload)
  = Prompt.score_resume (ScoreResumeRequest.job payload') (ScoreResumeRequest.resume payload') /\
  score_resume coerce_str responses_create json_loads payload
  = score_resume coerce_str responses_create json_loads payload'.
Proof.
  intros Hd Ht.
  assert (Hp : Prompt.score_resume (ScoreResumeRequest.job payload)
                 (ScoreResumeRequest.resume payload)
               = Prompt.score_resume (ScoreResumeRequest.job payload')
                   (ScoreResumeRequest.resume payload')).
  { unfold Prompt.score_resume. rewrite Hd, Ht. reflexivity. }
  split; [exact Hp|]. unfold score_resume. cbn zeta. rewrite Hp. reflexivity.
Qed.

Lemma score_resume_reads_description_and_text_only_witness :
  Prompt.score_resume (ScoreResumeRequest.job Stub.score_request)
    (ScoreResumeRequest.resume Stub.score_request)
  = Prompt.score_resume (ScoreResumeRequest.job Stub.score_request_renamed)
      (ScoreResumeRequest.resume Stub.score_request_renamed) /\
  score_resume Stub.strict (Stub.create Stub.scenario_text)
    (Stub.loads Stub.scenario_text (VDict Stub.scenario)) Stub.score_request
  = score_resume Stub.strict (Stub.create Stub.scenario_text)
      (Stub.loads Stub.scenario_text (VDict Stub.scenario)) Stub.score_request_renamed.
Proof.
  apply (score_resume_reads_description_and_text_only Stub.strict
           (Stub.create Stub.scenario_text)
           (Stub.loads Stub.scenario_text (VDict Stub.scenario))
           Stub.score_request Stub.score_request_renamed); reflexivity.
Defined.

(** ** Substrings *)

Lemma prefix_refl (s : string) : String.prefix s s = true.
Proof.
  induction s as [|c s IH]; [reflexivity|].
  cbn [String.prefix]. destruct (ascii_dec c c) as [_|Hne]; [exact IH | destruct (Hne eq_refl)].
Qed.

Lemma prefix_app_l (n a b : string) :
  String.prefix n a = true -> String.prefix n (a +:+ b) = true.
Proof.
  revert a. induction n as [|c n IH]; intros a H; [destruct (a +:+ b); reflexivity|].
  destruct a as [|c' a]; [discriminate H|].
  simpl in H. simpl.
  destruct (ascii_dec c c'); [apply IH, H | discriminate H].
Qed.

Lemma str_contains_cons (n : string) (c : ascii) (h : string) :
  PyOps.str_contains n (String c h)
  = String.prefix n (String c h) || PyOps.str_contains n h.
Proof. reflexivity. Qed.

Lemma str_contains_refl (s : string) : PyOps.str_contains s s = true.
Proof.
  destruct s as [|c s]; [reflexivity|].
  rewrite str_contains_cons, prefix_refl. reflexivity.
Qed.

Lemma str_contains_app_r (n a b : string) :
  PyOps.str_contains n b = true -> PyOps.str_contains n (a +:+ b) = true.
Proof.
  intros H. induction a as [|c a IH]; [exact H|].
  change (String c a +:+ b) with (String c (a +:+ b)).
  rewrite str_contains_cons, IH. apply orb_true_r.
Qed.

Lemma str_contains_app_l (n a b : string) :
  PyOps.str_contains n a = true -> PyOps.str_contains n (a +:+ b) = true.
Proof.
  induction a as [|c a IH]; intros H.
  - destruct n as [|c n]; [|discriminate H]. destruct b; reflexivity.
  - change (String c a +:+ b) with (String c (a +:+ b)).
    rewrite str_contains_cons in H. rewrite str_contains_cons.
    apply orb_true_iff in H. apply orb_true_iff.
    destruct H as [H|H]; [left | right; apply IH, H].
    apply (prefix_app_l n (String c a) b H).
Qed.

(** A string that occurs in a line occurs in the lines joined. *)
Lemma str_contains_lines (n line : string) (l : list string) :
  In line l -> PyOps.str_contains n line = true ->
  PyOps.str_contains n (Prompt.lines l) = true.
Proof.
  unfold Prompt.lines. intros Hin Hn.
  induction l as [|x l IH]; [destruct Hin|].
  destruct l as [|y l].
  - destruct Hin as [->|[]]. exact Hn.
  - change (String.concat Prompt.nl (x :: y :: l))
      with (x +:+ Prompt.nl +:+ String.concat Prompt.nl (y :: l)).
    destruct Hin as [->|Hin].
    + apply str_contains_app_l, Hn.
    + apply str_contains_app_r, str_contains_app_r, IH, Hin.
Qed.

Lemma check_keys_all_present (keys : list string) (data : value) :
  (forall k, In k keys -> PyOps.contains k data = Return true) ->
  check_keys keys data = Return tt.
Proof.
  induction keys as [|key rest IH]; intros Hall; [reflexivity|].
  cbn [check_keys]. rewrite (Hall key) by (left; reflexivity).
  cbn [mbind result_bind]. apply IH. intros k Hk. apply Hall. right. exact Hk.
Qed.

(** ** Answers that are valid JSON but no object *)

(** X10. When the answer is a JSON string in which the four key names
    occur (an object encoded twice, say), or a JSON array that holds the
    four names, the presence check of [score_resume] passes, by substring
    or by membership, and the handler raises [TypeError] at
    [data["match_score"]], not a missing-key error. *)
Theorem score_resume_on_text_naming_the_keys
    coerce_str responses_create json_loads payload (data : value) :
  call_openai_for_json responses_create json_loads
    (Prompt.score_resume (ScoreResumeRequest.job payload) (ScoreResumeRequest.resume payload))
  = Return data ->
  (exists s, data = VStr s /\
     forall k, In k required_keys -> exists pre post, s = pre +:+ k +:+ post) \/
  (exists l, data = VList l /\ forall k, In k required_keys -> In (VStr k) l) ->
  score_resume coerce_str responses_create json_loads payload = Raise (Uncaught TypeError).
Proof.
  intros Hcall Hdata. rewrite (score_resume_unfold _ _ _ _ _ Hcall).
  unfold score_resume_data.
  destruct Hdata as [(s & -> & Hs) | (l & -> & Hl)]; rewrite check_keys_all_present.
  - reflexivity.
  - intros k Hk. destruct (Hs k Hk) as (pre & post & ->). cbn [PyOps.contains].
    f_equal. apply str_contains_app_r, str_contains_app_l, str_contains_refl.
  - reflexivity.
  - intros k Hk. cbn [PyOps.contains]. f_equal. apply existsb_exists.
    exists (VStr k). split; [apply Hl, Hk | apply String.eqb_refl].
Qed.

Lemma score_resume_on_text_naming_the_keys_witness :
  score_resume Stub.strict (Stub.create (Prompt.q Stub.encoded_twice))
    (Stub.loads (Prompt.q Stub.encoded_twice) (VStr Stub.encoded_twice)) Stub.score_request
  = Raise (Uncaught TypeError).
Proof.
  apply (score_resume_on_text_naming_the_keys Stub.strict
           (Stub.create (Prompt.q Stub.encoded_twice))
           (Stub.loads (Prompt.q Stub.encoded_twice) (VStr Stub.encoded_twice))
           Stub.score_request (VStr Stub.encoded_twice)).
  - reflexivity.
  - left. exists Stub.encoded_twice. split; [reflexivity|].
    intros k [<-|[<-|[<-|[<-|[]]]]].
    + exists "{", ": 82, top_keywords: [], missing_or_weak_keywords: [], suggested_resume_edits: none}".
      reflexivity.
    + exists "{match_score: 82, ", ": [], missing_or_weak_keywords: [], suggested_resume_edits: none}".
      reflexivity.
    + exists "{match_score: 82, top_keywords: [], ", ": [], suggested_resume_edits: none}".
      reflexivity.
    + exists "{match_score: 82, top_keywords: [], missing_or_weak_keywords: [], ", ": none}".
      reflexivity.
Defined.

(** X11. On an answer that is no object [generate_cover_letter] returns
    nothing.  A string or an array that does not hold ["cover_letter_text"]
    is reported as the missing key; one that holds it passes the check and
    the handler raises [AttributeError] at [data.get]; [null], a boolean or
    a number raises [TypeError] at the check. *)
Theorem generate_cover_letter_on_non_object
    coerce_str responses_create json_loads payload (data : value) :
  call_openai_for_json responses_create json_loads (cover_letter_prompt payload)
  = Return data ->
  (forall d, data <> VDict d) ->
  generate_cover_letter coerce_str responses_create json_loads payload
  = match PyOps.contains "cover_letter_text" data with
    | Return true => Raise (Uncaught AttributeError)
    | Return false =>
        Raise (HTTPException 500 "Missing 'cover_letter_text' in OpenAI response")
    | Raise _ => Raise (Uncaught TypeError)
    end /\
  (PyOps.contains "cover_letter_text" data = Raise (Uncaught TypeError) <->
   data = VNone \/ (exists b, data = VBool b) \/ (exists n, data = VInt n) \/
   (exists f, data = VFloat f)).
Proof.
  intros Hcall Hnd. rewrite (generate_cover_letter_unfold _ _ _ _ _ Hcall).
  unfold generate_cover_letter_data. split.
  - destruct data as [| b | n | f | s | l | d]; try reflexivity.
    destruct (Hnd d). reflexivity.
  - destruct data as [| b | n | f | s | l | d]; cbn [PyOps.contains]; split; intros H;
      try discriminate H; eauto 6;
      destruct H as [H | [[? H] | [[? H] | [? H]]]]; discriminate H.
Qed.

Lemma generate_cover_letter_on_non_object_witness :
  generate_cover_letter Stub.strict (Stub.create "[]") (Stub.loads "[]" (VList []))
    Stub.letter_request
  = match PyOps.contains "cover_letter_text" (VList []) with
    | Return true => Raise (Uncaught AttributeError)
    | Return false =>
        Raise (HTTPException 500 "Missing 'cover_letter_text' in OpenAI response")
    | Raise _ => Raise (Uncaught TypeError)
    end /\
  (PyOps.contains "cover_letter_text" (VList []) = Raise (Uncaught TypeError) <->
   VList [] = VNone \/ (exists b, VList [] = VBool b) \/ (exists n, VList [] = VInt n) \/
   (exists f, VList [] = VFloat f)).
Proof.
  apply (generate_cover_letter_on_non_object Stub.strict
           (Stub.create "[]") (Stub.loads "[]" (VList [])) Stub.letter_request (VList [])).
  - reflexivity.
  - intros d H. discriminate H.
Defined.

(** ** The cover-letter handler: values, keys and the request *)

(** X12. The presence check of [generate_cover_letter] looks at the key,
    not at its value: when [cover_letter_text] is present with [null], an
    array or an object for value, the handler raises pydantic's
    [ValidationError] and no [HTTPException], under either treatment of
    numbers by the validator. *)
Theorem generate_cover_letter_text_not_a_string
    coerce_str responses_create json_loads payload (d : gmap string value) v :
  call_openai_for_json responses_create json_loads (cover_letter_prompt payload)
  = Return (VDict d) ->
  d !! "cover_letter_text" = Some v ->
  v = VNone \/ (exists l, v = VList l) \/ (exists m, v = VDict m) ->
  generate_cover_letter coerce_str responses_create json_loads payload
  = Raise (Uncaught ValidationError).
Proof.
  intros Hcall Hv Hshape. rewrite (generate_cover_letter_unfold _ _ _ _ _ Hcall).
  rewrite (generate_cover_letter_data_present _ _ _ Hv).
  unfold GenerateCLResponse.new.
  destruct Hshape as [-> | [[l ->] | [m ->]]]; reflexivity.
Qed.

Lemma generate_cover_letter_text_not_a_string_witness :
  generate_cover_letter Stub.strict (Stub.create Stub.letter_null_text_json)
    (Stub.loads Stub.letter_null_text_json (VDict Stub.letter_null_text)) Stub.letter_request
  = Raise (Uncaught ValidationError).
Proof.
  apply (generate_cover_letter_text_not_a_string Stub.strict
           (Stub.create Stub.letter_null_text_json)
           (Stub.loads Stub.letter_null_text_json (VDict Stub.letter_null_text))
           Stub.letter_request Stub.letter_null_text VNone).
  - reflexivity.
  - reflexivity.
  - left. reflexivity.
Defined.

(** X13. When the answer holds a string for [cover_letter_text] and a
    string for [summary], the result carries both unchanged. *)
Theorem generate_cover_letter_passes_text_and_summary
    coerce_str responses_create json_loads payload (d : gmap string value)
    (text summary : string) :
  call_openai_for_json responses_create json_loads (cover_letter_prompt payload)
  = Return (VDict d) ->
  d !! "cover_letter_text" = Some (VStr text) ->
  d !! "summary" = Some (VStr summary) ->
  generate_cover_letter coerce_str responses_create json_loads payload
  = Return (GenerateCLResponse.mk text (Some summary)).
Proof.
  intros Hcall Ht Hs. rewrite (generate_cover_letter_unfold _ _ _ _ _ Hcall).
  rewrite (generate_cover_letter_data_present _ _ _ Ht), Hs. reflexivity.
Qed.

Lemma generate_cover_letter_passes_text_and_summary_witness :
  generate_cover_letter Stub.strict (Stub.create Stub.letter_with_summary_json)
    (Stub.loads Stub.letter_with_summary_json (VDict Stub.letter_with_summary))
    Stub.letter_request
  = Return (GenerateCLResponse.mk "Dear Acme team" (Some "A strong fit.")).
Proof.
  apply (generate_cover_letter_passes_text_and_summary Stub.strict
           (Stub.create Stub.letter_with_summary_json)
           (Stub.loads Stub.letter_with_summary_json (VDict Stub.letter_with_summary))
           Stub.letter_request Stub.letter_with_summary "Dear Acme team" "A strong fit.");
    reflexivity.
Defined.

(** X14. [generate_cover_letter] reads the keys [cover_letter_text] and
    [summary] and nothing else: two mappings that agree on these two give
    the same outcome. *)
Theorem generate_cover_letter_ignores_other_keys
    coerce_str responses_create json_loads json_loads' payload
    (d d' : gmap string value) :
  call_openai_for_json responses_create json_loads (cover_letter_prompt payload)
  = Return (VDict d) ->
  call_openai_for_json responses_create json_loads' (cover_letter_prompt payload)
  = Return (VDict d') ->
  d !! "cover_letter_text" = d' !! "cover_letter_text" ->
  d !! "summary" = d' !! "summary" ->
  generate_cover_letter coerce_str responses_create json_loads payload
  = generate_cover_letter coerce_str responses_create json_loads' payload.
Proof.
  intros Hcall Hcall' Ht Hs.
  rewrite (generate_cover_letter_unfold _ _ _ _ _ Hcall),
    (generate_cover_letter_unfold _ _ _ _ _ Hcall').
  unfold generate_cover_letter_data, PyOps.contains, PyOps.get.
  rewrite Ht, Hs. reflexivity.
Qed.

Lemma generate_cover_letter_ignores_other_keys_witness :
  generate_cover_letter Stub.strict (Stub.create Stub.letter_text)
    (Stub.loads Stub.letter_text (VDict Stub.letter)) Stub.letter_request
  = generate_cover_letter Stub.strict (Stub.create Stub.letter_text)
      (Stub.loads Stub.letter_text (VDict Stub.letter_with_notes)) Stub.letter_request.
Proof.
  apply (generate_cover_letter_ignores_other_keys Stub.strict
           (Stub.create Stub.letter_text)
           (Stub.loads Stub.letter_text (VDict Stub.letter))
           (Stub.loads Stub.letter_text (VDict Stub.letter_with_notes))
           Stub.letter_request Stub.letter Stub.letter_with_notes); reflexivity.
Defined.



(** ** Integer scores *)

Lemma digits2_pos_lower (m : positive) : 2 ^ (Zpos (digits2_pos m) - 1) <= Zpos m.
Proof.
  induction m as [m IH|m IH|]; cbn [digits2_pos].
  - rewrite Pos2Z.inj_succ. replace (Z.succ (Zpos (digits2_pos m)) - 1) with (Z.succ (Zpos (digits2_pos m) - 1)) by lia.
    rewrite Z.pow_succ_r by lia. lia.
  - rewrite Pos2Z.inj_succ. replace (Z.succ (Zpos (digits2_pos m)) - 1) with (Z.succ (Zpos (digits2_pos m) - 1)) by lia.
    rewrite Z.pow_succ_r by lia. lia.
  - cbn. lia.
Qed.

Lemma digits2_pos_le_53 (m : positive) : Zpos m < 2 ^ 53 -> Zpos (digits2_pos m) <= 53.
Proof.
  intros H. pose proof (digits2_pos_lower m) as Hl.
  destruct (Z_le_gt_dec (Zpos (digits2_pos m)) 53) as [|Hgt]; [assumption|].
  assert (2 ^ 53 <= 2 ^ (Zpos (digits2_pos m) - 1)) by (apply Z.pow_le_mono_r; lia).
  lia.
Qed.

Lemma iter_xO_digits (m k : positive) :
  digits2_pos (Pos.iter xO m k) = (digits2_pos m + k)%positive.
Proof.
  induction k as [|k IH] using Pos.peano_ind.
  - cbn. lia.
  - rewrite Pos.iter_succ. cbn [digits2_pos]. rewrite IH. lia.
Qed.

Lemma iter_xO_value (m k : positive) :
  Zpos (Pos.iter xO m k) = Zpos m * 2 ^ Zpos k.
Proof.
  induction k as [|k IH] using Pos.peano_ind.
  - cbn. lia.
  - rewrite Pos.iter_succ, Pos2Z.inj_xO, IH, Pos2Z.inj_succ, Z.pow_succ_r by lia. lia.
Qed.

Lemma binary_round_aux_canonical (s : bool) (mz : positive) (ez : Z) :
  Zpos (digits2_pos mz) = 53 -> -1074 <= ez <= 971 ->
  binary_round_aux PyFloat.prec PyFloat.emax s (Zpos mz) ez loc_Exact = S754_finite s mz ez.
Proof.
  intros Hd He. unfold binary_round_aux, shr_fexp, fexp, emin, PyFloat.prec, PyFloat.emax.
  cbn [shr_record_of_loc Zdigits2]. rewrite Hd.
  replace (Z.max (53 + ez - 53) (3 - 1024 - 53) - ez) with 0 by lia.
  cbn [shr shr_m loc_of_shr_record round_nearest_even Zdigits2]. rewrite Hd.
  replace (Z.max (53 + ez - 53) (3 - 1024 - 53) - ez) with 0 by lia.
  cbn [shr shr_m].
  replace (ez <=? 1024 - 53) with true by (symmetry; apply Z.leb_le; lia).
  reflexivity.
Qed.

Lemma binary_round_small (s : bool) (m : positive) :
  Zpos m < 2 ^ 53 ->
  exists mz ez, binary_round PyFloat.prec PyFloat.emax s m 0 = S754_finite s mz ez /\
    -52 <= ez <= 0 /\ Zpos mz = Zpos m * 2 ^ (- ez).
Proof.
  intros Hm. pose proof (digits2_pos_le_53 m Hm) as Hd.
  unfold binary_round, shl_align, fexp, emin, PyFloat.prec, PyFloat.emax.
  replace (Z.max (Zpos (digits2_pos m) + 0 - 53) (3 - 1024 - 53)) with (Zpos (digits2_pos m) - 53) by lia.
  destruct (Zpos (digits2_pos m) - 53 - 0) as [|k|k] eqn:Hk; try lia.
  - exists m, 0. split; [|split; [lia|cbn; lia]].
    apply (binary_round_aux_canonical s m 0); lia.
  - exists (Pos.iter xO m k), (Zpos (digits2_pos m) - 53). split; [|split].
    + apply (binary_round_aux_canonical s); [rewrite iter_xO_digits|]; lia.
    + lia.
    + rewrite iter_xO_value. f_equal. f_equal. lia.
Qed.

Lemma nearest_even_exact (m mz : positive) (ez : Z) :
  -52 <= ez <= 0 -> Zpos mz = Zpos m * 2 ^ (- ez) ->
  PyFloat.nearest_even mz ez = Zpos m.
Proof.
  intros He Hv. unfold PyFloat.nearest_even.
  destruct (0 <=? ez) eqn:H0.
  - apply Z.leb_le in H0. assert (ez = 0) as -> by lia. cbn in Hv. lia.
  - apply Z.leb_gt in H0. cbn zeta.
    assert (Hp : 0 < 2 ^ (- ez)) by (apply Z.pow_pos_nonneg; lia).
    rewrite Hv, Z.div_mul, Z.mod_mul by lia.
    replace (2 * 0) with 0 by lia.
    destruct (0 ?= 2 ^ (- ez)) eqn:Hc; [apply Z.compare_eq in Hc; lia | reflexivity |
      apply Z.compare_gt_iff in Hc; lia].
Qed.

Lemma round_float_int_exact (n : Z) :
  - 2 ^ 53 < n < 2 ^ 53 ->
  (x ← PyFloat.float (VInt n); PyFloat.round x) = Return n.
Proof.
  intros Hn. cbn [PyFloat.float]. unfold PyFloat.of_int, binary_normalize.
  destruct n as [|m|m].
  - reflexivity.
  - destruct (binary_round_small false m) as (mz & ez & -> & He & Hv); [lia|].
    cbn [mbind result_bind PyFloat.round]. f_equal. apply nearest_even_exact; assumption.
  - destruct (binary_round_small true m) as (mz & ez & -> & He & Hv); [lia|].
    cbn [mbind result_bind PyFloat.round]. f_equal.
    rewrite (nearest_even_exact m mz ez He Hv). reflexivity.
Qed.

(** X16. An integer [match_score] between [-2^53] and [2^53] comes back
    exactly: [float] holds it without loss and [round] gives it back, and
    nothing brings it into 0..100. *)
Theorem score_resume_integer_score_exact
    coerce_str responses_create json_loads payload (d : gmap string value)
    (n : Z) (tk mk : list string) (se : string) :
  call_openai_for_json responses_create json_loads
    (Prompt.score_resume (ScoreResumeRequest.job payload) (ScoreResumeRequest.resume payload))
  = Return (VDict d) ->
  d !! "match_score" = Some (VInt n) ->
  - 2 ^ 53 < n < 2 ^ 53 ->
  d !! "top_keywords" = Some (VList (VStr <$> tk)) ->
  d !! "missing_or_weak_keywords" = Some (VList (VStr <$> mk)) ->
  d !! "suggested_resume_edits" = Some (VStr se) ->
  score_resume coerce_str responses_create json_loads payload
  = Return (ScoreResumeResponse.mk n tk mk se).
Proof.
  intros Hcall Hs Hn Ht Hm He.
  rewrite (score_resume_unfold _ _ _ _ _ Hcall).
  rewrite (score_resume_data_present _ _ _ _ _ _ Hs Ht Hm He).
  pose proof (round_float_int_exact n Hn) as Hr.
  destruct (PyFloat.float (VInt n)) as [x|e]; [|discriminate Hr].
  cbn [mbind result_bind] in Hr |- *. rewrite Hr. cbn [mbind result_bind].
  unfold ScoreResumeResponse.new. rewrite !validate_list_str_strings. reflexivity.
Qed.

Lemma score_resume_integer_score_exact_witness :
  score_resume Stub.strict (Stub.create Stub.scenario_text)
    (Stub.loads Stub.scenario_text (VDict Stub.big_score)) Stub.score_request
  = Return (ScoreResumeResponse.mk 4503599627370497 ["Python"; "SQL"] ["SQL"]
              "Add SQL examples.").
Proof.
  apply (score_resume_integer_score_exact Stub.strict
           (Stub.create Stub.scenario_text)
           (Stub.loads Stub.scenario_text (VDict Stub.big_score))
           Stub.score_request Stub.big_score 4503599627370497
           ["Python"; "SQL"] ["SQL"] "Add SQL examples.");
    try reflexivity.
  vm_compute. split; reflexivity.
Defined.

(** ** The prompts *)

Lemma str_contains_concat (sep n item : string) (l : list string) :
  In item l -> PyOps.str_contains n item = true ->
  PyOps.str_contains n (String.concat sep l) = true.
Proof.
  intros Hin Hn. induction l as [|x l IH]; [destruct Hin|].
  destruct l as [|y l].
  - destruct Hin as [->|[]]. exact Hn.
  - change (String.concat sep (x :: y :: l))
      with (x +:+ sep +:+ String.concat sep (y :: l)).
    destruct Hin as [->|Hin].
    + apply str_contains_app_l, Hn.
    + apply str_contains_app_r, str_contains_app_r, IH, Hin.
Qed.

(** X17. Each prompt names, between double quotes, every key its handler
    reads from the answer: the score-resume prompt names the four required
    keys, the cover-letter prompt names [cover_letter_text] and [summary],
    whatever the request holds. *)
Theorem prompts_name_the_keys_read :
  (forall job resume k,
     In k required_keys ->
     PyOps.str_contains (Prompt.q k) (Prompt.score_resume job resume) = true) /\
  (forall payload,
     PyOps.str_contains (Prompt.q "cover_letter_text") (cover_letter_prompt payload) = true /\
     PyOps.str_contains (Prompt.q "summary") (cover_letter_prompt payload) = true).
Proof.
  split.
  - intros job resume k Hk. unfold Prompt.score_resume.
    destruct Hk as [<-|[<-|[<-|[<-|[]]]]].
    + apply (str_contains_lines _ ("  " +:+ Prompt.q "match_score" +:+ ": number,"));
        [simpl; tauto | vm_compute; reflexivity].
    + apply (str_contains_lines _
               ("  " +:+ Prompt.q "top_keywords" +:+ ": [ " +:+ Prompt.q "keyword1" +:+ ", "
                +:+ Prompt.q "keyword2" +:+ ", ... ],"));
        [simpl; tauto | vm_compute; reflexivity].
    + apply (str_contains_lines _
               ("  " +:+ Prompt.q "missing_or_weak_keywords" +:+ ": [ " +:+ Prompt.q "kwA"
                +:+ ", " +:+ Prompt.q "kwB" +:+ ", ... ],"));
        [simpl; tauto | vm_compute; reflexivity].
    + apply (str_contains_lines _
               ("  " +:+ Prompt.q "suggested_resume_edits" +:+ ": "
                +:+ Prompt.q "string with concrete suggestions"));
        [simpl; tauto | vm_compute; reflexivity].
  - intros payload. unfold cover_letter_prompt, Prompt.cover_letter. cbn zeta. split.
    + apply (str_contains_lines _
               ("  " +:+ Prompt.q "cover_letter_text" +:+ ": "
                +:+ Prompt.q "full cover letter text here" +:+ ","));
        [|vm_compute; reflexivity].
      apply in_or_app. right. apply in_or_app. right. simpl. tauto.
    + apply (str_contains_lines _
               ("  " +:+ Prompt.q "summary" +:+ ": "
                +:+ Prompt.q "one sentence summary of why this candidate is a strong fit"));
        [|vm_compute; reflexivity].
      apply in_or_app. right. apply in_or_app. right. simpl. tauto.
Qed.

(** X18. What the client wrote reaches the provider as written: the job
    description and the resume text occur in the score-resume prompt, and
    the job description, the company, the role title, the resume text and
    every focus point occur in the cover-letter prompt. *)
Theorem prompts_hold_the_request_verbatim :
  (forall job resume,
     PyOps.str_contains (JobInfo.job_description job) (Prompt.score_resume job resume) = true /\
     PyOps.str_contains (ResumeInfo.text resume) (Prompt.score_resume job resume) = true) /\
  (forall payload,
     let job := GenerateCLRequest.job payload in
     let prompt := cover_letter_prompt payload in
     PyOps.str_contains (JobInfo.job_description job) prompt = true /\
     PyOps.str_contains (JobInfo.company job) prompt = true /\
     PyOps.str_contains (JobInfo.role_title job) prompt = true /\
     PyOps.str_contains (ResumeInfo.text (GenerateCLRequest.resume payload)) prompt = true /\
     forall points point,
       ExtrasInfo.focus_points (extras_or_default payload) = Some points ->
       In point points ->
       PyOps.str_contains point prompt = true).
Proof.
  split.
  - intros job resume. unfold Prompt.score_resume. split.
    + apply (str_contains_lines _ (JobInfo.job_description job));
        [simpl; tauto | apply str_contains_refl].
    + apply (str_contains_lines _ (ResumeInfo.text resume));
        [simpl; tauto | apply str_contains_refl].
  - intros payload. cbn zeta. unfold cover_letter_prompt, Prompt.cover_letter. cbn zeta.
    repeat split.
    + apply (str_contains_lines _ (JobInfo.job_description (GenerateCLRequest.job payload)));
        [|apply str_contains_refl].
      apply in_or_app. left. simpl. tauto.
    + apply (str_contains_lines _
               ("Company: " +:+ JobInfo.company (GenerateCLRequest.job payload)));
        [|apply str_contains_app_r, str_contains_refl].
      apply in_or_app. left. simpl. tauto.
    + apply (str_contains_lines _
               ("Role title: " +:+ JobInfo.role_title (GenerateCLRequest.job payload)));
        [|apply str_contains_app_r, str_contains_refl].
      apply in_or_app. left. simpl. tauto.
    + apply (str_contains_lines _ (ResumeInfo.text (GenerateCLRequest.resume payload)));
        [|apply str_contains_refl].
      apply in_or_app. left. simpl. tauto.
    + intros points point Hp Hin.
      apply (str_contains_lines _ ("- " +:+ focus_points_text (extras_or_default payload))).
      * apply in_or_app. right. apply in_or_app. left. simpl. tauto.
      * apply str_contains_app_r. unfold focus_points_text. rewrite Hp.
        destruct points as [|p ps]; [destruct Hin|].
        apply str_contains_app_r.
        apply (str_contains_concat _ _ point); [exact Hin | apply str_contains_refl].
Qed.

Lemma append_assoc (a b c : string) : (a +:+ b) +:+ c = a +:+ b +:+ c.
Proof.
  induction a as [|ch a IH]; [reflexivity|].
  change ((String ch a +:+ b) +:+ c) with (String ch ((a +:+ b) +:+ c)).
  rewrite IH. reflexivity.
Qed.

(** X19. The focus points are joined without any quoting: a single point
    that holds [", "] gives the clause, and the prompt, of the two points
    it splits into. *)
Theorem focus_clause_does_not_separate_points
    (job : JobInfo.t) (resume : ResumeInfo.t)
    (tone length : option string) (a b : string) (rest : list string) :
  let joined := ExtrasInfo.new tone length (Some ((a +:+ ", " +:+ b) :: rest)) in
  let apart := ExtrasInfo.new tone length (Some (a :: b :: rest)) in
  focus_points_text joined = focus_points_text apart /\
  cover_letter_prompt (GenerateCLRequest.new job resume (Some joined))
  = cover_letter_prompt (GenerateCLRequest.new job resume (Some apart)).
Proof.
  cbn zeta.
  assert (H : focus_points_text
                (ExtrasInfo.new tone length (Some ((a +:+ ", " +:+ b) :: rest)))
              = focus_points_text (ExtrasInfo.new tone length (Some (a :: b :: rest)))).
  { unfold focus_points_text. cbn [ExtrasInfo.focus_points]. f_equal.
    destruct rest as [|c rest]; [reflexivity|].
    change (String.concat ", " ((a +:+ ", " +:+ b) :: c :: rest))
      with ((a +:+ ", " +:+ b) +:+ ", " +:+ String.concat ", " (c :: rest)).
    change (String.concat ", " (a :: b :: c :: rest))
      with (a +:+ ", " +:+ b +:+ ", " +:+ String.concat ", " (c :: rest)).
    rewrite !append_assoc. reflexivity. }
  split; [exact H|].
  unfold cover_letter_prompt, Prompt.cover_letter, Prompt.cover_letter_guidelines.
  cbn [extras_or_default GenerateCLRequest.extras GenerateCLRequest.job
       GenerateCLRequest.resume ExtrasInfo.tone ExtrasInfo.length].
  rewrite H. reflexivity.
Qed.

(** ** What a returned result says about the answer *)

Lemma validate_list_str_inv coerce_str (v : value) (out : list string) :
  validate_list_str coerce_str v = Some out ->
  exists l, v = VList l /\ length l = length out /\
    forall (i : nat) (s : string), l !! i = Some (VStr s) -> out !! i = Some s.
Proof.
  destruct v as [| b | n | f | s0 | l | d]; cbn [validate_list_str]; try discriminate.
  intros H. apply mapM_Some in H. exists l. split; [reflexivity|].
  split; [eapply Forall2_length, H|].
  intros i s Hi. destruct (Forall2_lookup_l _ _ _ _ _ H Hi) as (y & Hy & Hv).
  cbn [validate_str] in Hv. congruence.
Qed.

Lemma validate_str_inv coerce_str (v : value) (out : string) :
  validate_str coerce_str v = Some out ->
  (exists s, v = VStr s /\ out = s) \/
  (exists b, v = VBool b) \/ (exists n, v = VInt n) \/ (exists f, v = VFloat f).
Proof.
  destruct v as [| b | n | f | s | l | d]; cbn [validate_str]; intros H;
    try discriminate H; eauto 6.
  injection H as <-. left. eauto.
Qed.

(** X20. Every result [score_resume] returns comes from an answer that is
    an object with the four required keys: its [match_score] is
    [round(float(value))] of the object's [match_score]; the two keyword
    values are arrays of the same lengths as the result's lists, and every
    string in them stands at the same place in the result; the value of
    [suggested_resume_edits] is not [null], an array or an object, and
    when it is a string the result carries it unchanged. *)
Theorem score_resume_result_comes_from_the_answer
    coerce_str responses_create json_loads payload (r : ScoreResumeResponse.t) :
  score_resume coerce_str responses_create json_loads payload = Return r ->
  exists (d : gmap string value) raw x tk mk se,
    call_openai_for_json responses_create json_loads
      (Prompt.score_resume (ScoreResumeRequest.job payload) (ScoreResumeRequest.resume payload))
    = Return (VDict d) /\
    d !! "match_score" = Some raw /\
    PyFloat.float raw = Return x /\
    PyFloat.round x = Return (ScoreResumeResponse.match_score r) /\
    d !! "top_keywords" = Some (VList tk) /\
    length tk = length (ScoreResumeResponse.top_keywords r) /\
    (forall (i : nat) (s : string),
       tk !! i = Some (VStr s) -> ScoreResumeResponse.top_keywords r !! i = Some s) /\
    d !! "missing_or_weak_keywords" = Some (VList mk) /\
    length mk = length (ScoreResumeResponse.missing_or_weak_keywords r) /\
    (forall (i : nat) (s : string),
       mk !! i = Some (VStr s) ->
       ScoreResumeResponse.missing_or_weak_keywords r !! i = Some s) /\
    d !! "suggested_resume_edits" = Some se /\
    ((exists s, se = VStr s /\ ScoreResumeResponse.suggested_resume_edits r = s) \/
     (exists b, se = VBool b) \/ (exists n, se = VInt n) \/ (exists f, se = VFloat f)).
Proof.
  unfold score_resume. cbn zeta. intros H.
  destruct (call_openai_for_json _ _ _) as [data|e] eqn:Hcall;
    cbn [mbind result_bind] in H; [|discriminate H].
  destruct data as [| b | n | f | s | l | d];
    try (match type of H with
         | _ ?data = _ =>
             assert (Hn : returns (score_resume_data coerce_str data) = false)
               by (apply score_resume_data_needs_dict; intros d0 Hd; discriminate Hd)
         end;
         rewrite H in Hn; cbn [returns] in Hn; discriminate Hn).
  unfold score_resume_data in H.
  destruct (check_keys required_keys (VDict d)) as [[]|e] eqn:Hk;
    cbn [mbind result_bind] in H; [|discriminate H].
  pose proof (check_keys_dict_return _ _ Hk) as Hall.
  destruct (Hall "match_score") as [raw Hs]; [simpl; tauto|].
  destruct (Hall "top_keywords") as [tkv Ht]; [simpl; tauto|].
  destruct (Hall "missing_or_weak_keywords") as [mkv Hm]; [simpl; tauto|].
  destruct (Hall "suggested_resume_edits") as [se Hse]; [simpl; tauto|].
  unfold PyOps.getitem, PyOps.get in H. rewrite Hs, Ht, Hm, Hse in H.
  cbn [mbind result_bind from_option id] in H.
  destruct (PyFloat.float raw) as [x|e] eqn:Hx; cbn [mbind result_bind] in H; [|discriminate H].
  destruct (PyFloat.round x) as [m|e] eqn:Hr; cbn [mbind result_bind] in H; [|discriminate H].
  unfold ScoreResumeResponse.new in H.
  destruct (validate_list_str coerce_str tkv) as [tk'|] eqn:Vt; [|discriminate H].
  destruct (validate_list_str coerce_str mkv) as [mk'|] eqn:Vm; [|discriminate H].
  destruct (validate_str coerce_str se) as [se'|] eqn:Vs; [|discriminate H].
  injection H as <-. cbn [ScoreResumeResponse.match_score ScoreResumeResponse.top_keywords
    ScoreResumeResponse.missing_or_weak_keywords ScoreResumeResponse.suggested_resume_edits].
  destruct (validate_list_str_inv _ _ _ Vt) as (tk & -> & Hlt & Hit).
  destruct (validate_list_str_inv _ _ _ Vm) as (mk & -> & Hlm & Him).
  exists d, raw, x, tk, mk, se.
  repeat (split; [first [reflexivity | assumption]|]).
  exact (validate_str_inv _ _ _ Vs).
Qed.

Lemma score_resume_result_comes_from_the_answer_witness :
  exists (d : gmap string value) raw x tk mk se,
    call_openai_for_json (Stub.create Stub.scenario_text)
      (Stub.loads Stub.scenario_text (VDict Stub.scenario))
      (Prompt.score_resume (ScoreResumeRequest.job Stub.score_request)
         (ScoreResumeRequest.resume Stub.score_request))
    = Return (VDict d) /\
    d !! "match_score" = Some raw /\
    PyFloat.float raw = Return x /\
    PyFloat.round x = Return 83 /\
    d !! "top_keywords" = Some (VList tk) /\
    length tk = length ["Python"; "SQL"] /\
    (forall (i : nat) (s : string),
       tk !! i = Some (VStr s) -> ["Python"; "SQL"] !! i = Some s) /\
    d !! "missing_or_weak_keywords" = Some (VList mk) /\
    length mk = length ["SQL"] /\
    (forall (i : nat) (s : string), mk !! i = Some (VStr s) -> ["SQL"] !! i = Some s) /\
    d !! "suggested_resume_edits" = Some se /\
    ((exists s, se = VStr s /\ "Add SQL examples." = s) \/
     (exists b, se = VBool b) \/ (exists n, se = VInt n) \/ (exists f, se = VFloat f)).
Proof.
  apply (score_resume_result_comes_from_the_answer Stub.strict
           (Stub.create Stub.scenario_text)
           (Stub.loads Stub.scenario_text (VDict Stub.scenario))
           Stub.score_request
           (ScoreResumeResponse.mk 83 ["Python"; "SQL"] ["SQL"] "Add SQL examples.")).
  reflexivity.
Defined.

(** X21. Every result [generate_cover_letter] returns comes from an answer
    that is an object with the key [cover_letter_text] whose value is not
    [null], an array or an object; when that value is a string the result
    carries it unchanged, and the result has no summary exactly when
    [summary] is absent from the object or [null]. *)
Theorem generate_cover_letter_result_comes_from_the_answer
    coerce_str responses_create json_loads payload (r : GenerateCLResponse.t) :
  generate_cover_letter coerce_str responses_create json_loads payload = Return r ->
  exists (d : gmap string value) v,
    call_openai_for_json responses_create json_loads (cover_letter_prompt payload)
    = Return (VDict d) /\
    d !! "cover_letter_text" = Some v /\
    ((exists s, v = VStr s /\ GenerateCLResponse.cover_letter_text r = s) \/
     (exists b, v = VBool b) \/ (exists n, v = VInt n) \/ (exists f, v = VFloat f)) /\
    (GenerateCLResponse.summary r = None <->
     d !! "summary" = None \/ d !! "summary" = Some VNone) /\
    (forall s, d !! "summary" = Some (VStr s) -> GenerateCLResponse.summary r = Some s).
Proof.
  unfold generate_cover_letter. intros H.
  destruct (call_openai_for_json _ _ _) as [data|e] eqn:Hcall;
    cbn [mbind result_bind] in H; [|discriminate H].
  destruct data as [| b | n | f | s | l | d];
    try (match type of H with
         | _ ?data = _ =>
             assert (Hn : returns (generate_cover_letter_data coerce_str data) = false)
               by (apply generate_cover_letter_data_needs_dict; intros d0 Hd; discriminate Hd)
         end;
         rewrite H in Hn; cbn [returns] in Hn; discriminate Hn).
  destruct (d !! "cover_letter_text") as [v|] eqn:Hv;
    [|rewrite (generate_cover_letter_data_absent _ _ Hv) in H; discriminate H].
  rewrite (generate_cover_letter_data_present _ _ _ Hv) in H.
  unfold GenerateCLResponse.new in H.
  destruct (validate_str coerce_str v) as [c|] eqn:Vc; [|discriminate H].
  destruct (validate_optional_str coerce_str _) as [sm|] eqn:Vs; [|discriminate H].
  injection H as <-. cbn [GenerateCLResponse.cover_letter_text GenerateCLResponse.summary].
  exists d, v. split; [reflexivity|]. split; [exact Hv|].
  split; [exact (validate_str_inv _ _ _ Vc)|].
  destruct (d !! "summary") as [sv|] eqn:Hsv; cbn [default] in Vs.
  - destruct sv as [| b | n | f | s | l | d0]; simpl in Vs; try discriminate Vs.
    + injection Vs as <-. split; [split; auto|]. intros s Hs. discriminate Hs.
    + destruct (coerce_str (VBool b)); simpl in Vs; [|discriminate Vs]. injection Vs as <-.
      split; [split; [discriminate | intros [H|H]; discriminate H]|]. intros s1 Hs. discriminate Hs.
    + destruct (coerce_str (VInt n)); simpl in Vs; [|discriminate Vs]. injection Vs as <-.
      split; [split; [discriminate | intros [H|H]; discriminate H]|]. intros s1 Hs. discriminate Hs.
    + destruct (coerce_str (VFloat f)); simpl in Vs; [|discriminate Vs]. injection Vs as <-.
      split; [split; [discriminate | intros [H|H]; discriminate H]|]. intros s1 Hs. discriminate Hs.
    + injection Vs as <-.
      split; [split; [discriminate | intros [H|H]; discriminate H]|].
      intros s0 Hs. injection Hs as <-. reflexivity.
  - cbn [validate_optional_str] in Vs. injection Vs as <-.
    split; [split; auto|]. intros s Hs. discriminate Hs.
Qed.

Lemma generate_cover_letter_result_comes_from_the_answer_witness :
  exists (d : gmap string value) v,
    call_openai_for_json (Stub.create Stub.letter_with_summary_json)
      (Stub.loads Stub.letter_with_summary_json (VDict Stub.letter_with_summary))
      (cover_letter_prompt Stub.letter_request)
    = Return (VDict d) /\
    d !! "cover_letter_text" = Some v /\
    ((exists s, v = VStr s /\ "Dear Acme team" = s) \/
     (exists b, v = VBool b) \/ (exists n, v = VInt n) \/ (exists f, v = VFloat f)) /\
    (Some "A strong fit." = None <->
     d !! "summary" = None \/ d !! "summary" = Some VNone) /\
    (forall s, d !! "summary" = Some (VStr s) -> Some "A strong fit." = Some s).
Proof.
  apply (generate_cover_letter_result_comes_from_the_answer Stub.strict
           (Stub.create Stub.letter_with_summary_json)
           (Stub.loads Stub.letter_with_summary_json (VDict Stub.letter_with_summary))
           Stub.letter_request
           (GenerateCLResponse.mk "Dear Acme team" (Some "A strong fit."))).
  reflexivity.
Defined.
